(** * Filesystem: a shallow embedding of the protocol abstraction layer

    The Go packages [local], [ftp], [nfs], [smb], [webdav] and [factory]
    of digital.vasic.filesystem, translated function by function.  Go
    strings are [string]s (byte sequences), Go [int]/[int64] values are
    [Z], and every call that leaves the package for the operating
    system, the network or a protocol library is an event of a small
    free monad, so that "which backend calls does this method make" is a
    property of the program text. *)

From Stdlib Require Import ZArith Lia List Bool Ascii String.
From stdpp Require Import gmap strings.
Import ListNotations.
#[local] Set Warnings "-register-all".
Local Open Scope string_scope.
Local Open Scope list_scope.
Local Open Scope Z_scope.

(** ** Go's [strings] package (the functions the adapters call) *)

Module GoStrings.

(** [len(s)]. *)
Definition len (s : string) : Z := Z.of_nat (String.length s).

(** [s[n:]] for [n <= len(s)] (all of [s] is dropped past its end). *)
Fixpoint drop (n : nat) (s : string) : string :=
  match n, s with
  | O, _ => s
  | S n', String _ r => drop n' r
  | S _, EmptyString => EmptyString
  end.

(** [s[:n]] for [n <= len(s)]. *)
Fixpoint take (n : nat) (s : string) : string :=
  match n, s with
  | O, _ => EmptyString
  | S n', String c r => String c (take n' r)
  | S _, EmptyString => EmptyString
  end.

(** The slice expression [s[lo:hi]]: Go panics unless
    [0 <= lo <= hi <= len(s)]; [None] is that run-time panic. *)
Definition slice (s : string) (lo hi : Z) : option string :=
  if (0 <=? lo) && (lo <=? hi) && (hi <=? len s)
  then Some (take (Z.to_nat (hi - lo)) (drop (Z.to_nat lo) s))
  else None.

Fixpoint HasPrefix (s prefix : string) {struct prefix} : bool :=
  match prefix, s with
  | EmptyString, _ => true
  | String p prefix', String c s' => Ascii.eqb c p && HasPrefix s' prefix'
  | String _ _, EmptyString => false
  end.

Definition HasSuffix (s suffix : string) : bool :=
  (String.length suffix <=? String.length s)%nat
  && String.eqb (drop (String.length s - String.length suffix) s) suffix.

Definition TrimPrefix (s prefix : string) : string :=
  if HasPrefix s prefix then drop (String.length prefix) s else s.

Definition TrimSuffix (s suffix : string) : string :=
  if HasSuffix s suffix
  then take (String.length s - String.length suffix) s
  else s.

(** [strings.Index]: the byte offset of the first occurrence of [substr],
    or [-1]. *)
Fixpoint Index (s substr : string) : Z :=
  if HasPrefix s substr then 0
  else match s with
       | EmptyString => -1
       | String _ r => let i := Index r substr in
                       if i <? 0 then -1 else i + 1
       end.

Definition Contains (s substr : string) : bool := 0 <=? Index s substr.

(** The scanning loop shared by [ReplaceAll] and [Split] for a non-empty
    pattern: [skip] counts the bytes of a match still to be passed over,
    so the occurrences found are the non-overlapping ones, left to right. *)
Fixpoint replace_scan (old new : string) (skip : nat) (s : string) : string :=
  match s with
  | EmptyString => EmptyString
  | String c r =>
      match skip with
      | S k => replace_scan old new k r
      | O => if HasPrefix s old
             then new +:+ replace_scan old new (String.length old - 1) r
             else String c (replace_scan old new O r)
      end
  end.

(** With an empty [old], Go inserts [new] before every byte and at the end. *)
Fixpoint replace_empty (new s : string) : string :=
  match s with
  | EmptyString => new
  | String c r => new +:+ String c (replace_empty new r)
  end.

Definition ReplaceAll (s old new : string) : string :=
  match old with
  | EmptyString => replace_empty new s
  | String _ _ => replace_scan old new O s
  end.

(** [cur] is the piece being collected, in reverse. *)
Fixpoint split_scan (sep : string) (skip : nat) (cur : list ascii) (s : string)
  : list string :=
  match s with
  | EmptyString => [string_of_list_ascii (rev cur)]
  | String c r =>
      match skip with
      | S k => split_scan sep k cur r
      | O => if HasPrefix s sep
             then string_of_list_ascii (rev cur)
                    :: split_scan sep (String.length sep - 1) [] r
             else split_scan sep O (c :: cur) r
      end
  end.

(** [strings.Split] for a non-empty separator (the only use in the
    repository); an empty separator explodes the string into its bytes. *)
Definition Split (s sep : string) : list string :=
  match sep with
  | EmptyString => map (fun c => String c EmptyString) (list_ascii_of_string s)
  | String _ _ => split_scan sep O [] s
  end.

(** [IndexByte(s, c) >= 0]. *)
Fixpoint ContainsByte (s : string) (c : ascii) : bool :=
  match s with
  | EmptyString => false
  | String d r => Ascii.eqb d c || ContainsByte r c
  end.

End GoStrings.

(** ** Go's [strconv]: decimal formatting and [ParseInt(s, 10, 64)] *)

Module GoStrconv.

Definition digit (d : Z) : ascii := ascii_of_nat (48 + Z.to_nat d).

Fixpoint utoa (fuel : nat) (n : Z) (acc : string) : string :=
  match fuel with
  | O => acc
  | S f => let acc' := String (digit (n mod 10)) acc in
           if n <? 10 then acc' else utoa f (n / 10) acc'
  end.

(** [fmt.Sprintf("%d", n)] / [strconv.Itoa]. *)
Definition Itoa (n : Z) : string :=
  if n <? 0 then String "-" (utoa (S (Z.to_nat (Z.log2 (- n)))) (- n) EmptyString)
  else utoa (S (Z.to_nat (Z.log2 n))) n EmptyString.

Definition digit_val (c : ascii) : option Z :=
  let n := Z.of_nat (nat_of_ascii c) in
  if (48 <=? n) && (n <=? 57) then Some (n - 48) else None.

Fixpoint parse_digits (s : string) (acc : Z) : option Z :=
  match s with
  | EmptyString => Some acc
  | String c r => match digit_val c with
                  | Some d => parse_digits r (10 * acc + d)
                  | None => None
                  end
  end.

Definition maxInt64 : Z := 2 ^ 63 - 1.

(** [strconv.ParseInt(s, 10, 64)]: an optional sign, then one or more
    decimal digits, the value within int64; [None] is a non-nil error. *)
Definition ParseInt (s : string) : option Z :=
  let '(neg, body) :=
    match s with
    | String "-" r => (true, r)
    | String "+" r => (false, r)
    | _ => (false, s)
    end in
  match body with
  | EmptyString => None
  | _ => match parse_digits body 0 with
         | Some v => if neg then (if v <=? maxInt64 + 1 then Some (- v) else None)
                     else (if v <=? maxInt64 then Some v else None)
         | None => None
         end
  end.

End GoStrconv.

(** ** Go's [path/filepath] on a slash-separated platform *)

Module GoFilepath.

Definition isSep (c : ascii) : bool := Ascii.eqb c "/".
Definition isDot (c : ascii) : bool := Ascii.eqb c ".".

(** Is the rest of the path at an element boundary ([r == n] or a
    separator at [path[r]])? *)
Definition atBoundary (s : string) : bool :=
  match s with
  | EmptyString => true
  | String c _ => isSep c
  end.

(** The inner loop of the [..] case: [w] has just been decremented past
    [last]; keep dropping while [w > dotdot] and the byte at [w] is no
    separator.  [buf] is the lazybuf's [buf[:w]], last byte first. *)
Fixpoint backtrack_loop (last : ascii) (buf : list ascii) (dotdot : nat)
  : list ascii :=
  if (dotdot <? length buf)%nat && negb (isSep last)
  then match buf with
       | c :: r => backtrack_loop c r dotdot
       | [] => []
       end
  else buf.

Definition backtrack (buf : list ascii) (dotdot : nat) : list ascii :=
  match buf with
  | c :: r => backtrack_loop c r dotdot
  | [] => []
  end.

(** [rooted && out.w != 1 || !rooted && out.w != 0] *)
Definition sepNeeded (rooted : bool) (buf : list ascii) : bool :=
  (rooted && negb (length buf =? 1)%nat)
  || (negb rooted && negb (length buf =? 0)%nat).

(** [if rooted && out.w != 1 || !rooted && out.w != 0 { out.append(Separator) }] *)
Definition addSep (rooted : bool) (buf : list ascii) : list ascii :=
  if sepNeeded rooted buf then "/"%char :: buf else buf.

(** The main loop of [Clean] over [path[r:]].  [copying] is set while
    the bytes of a real path element are being copied (Go's inner [for]
    of the default case); otherwise [s] starts a path element. *)
Fixpoint clean_loop (rooted copying : bool) (buf : list ascii) (dotdot : nat)
  (s : string) : list ascii :=
  match s with
  | EmptyString => buf
  | String c r =>
      if isSep c then clean_loop rooted false buf dotdot r
      else if copying then clean_loop rooted true (c :: buf) dotdot r
      else if isDot c && atBoundary r then clean_loop rooted false buf dotdot r
      else
        match r with
        | String c2 r2 =>
            if isDot c && isDot c2 && atBoundary r2 then
              if (dotdot <? length buf)%nat then
                clean_loop rooted false (backtrack buf dotdot) dotdot r2
              else if negb rooted then
                let buf1 := if (0 <? length buf)%nat
                            then "/"%char :: buf else buf in
                let buf2 := "."%char :: "."%char :: buf1 in
                clean_loop rooted false buf2 (length buf2) r2
              else clean_loop rooted false buf dotdot r2
            else clean_loop rooted true (c :: addSep rooted buf) dotdot r
        | EmptyString => clean_loop rooted true (c :: addSep rooted buf) dotdot r
        end
  end.

(** The bytes written so far, as a string. *)
Definition bufString (buf : list ascii) : string :=
  string_of_list_ascii (rev buf).

(** The buffer as the string [Clean] returns: an empty one is [.]. *)
Definition finish (buf : list ascii) : string :=
  match buf with
  | [] => "."
  | _ => bufString buf
  end.

Definition Clean (path : string) : string :=
  match path with
  | EmptyString => "."
  | String c r =>
      if isSep c then finish (clean_loop true false ["/"%char] 1 r)
      else finish (clean_loop false false [] 0 path)
  end.

(** What [clean_loop] does on a path in which no [..] element occurs:
    the branch for [..] and the index [dotdot] play no part. *)
Fixpoint plain_loop (rooted copying : bool) (buf : list ascii) (s : string)
  : list ascii :=
  match s with
  | EmptyString => buf
  | String c r =>
      if isSep c then plain_loop rooted false buf r
      else if copying then plain_loop rooted true (c :: buf) r
      else if isDot c && atBoundary r then plain_loop rooted false buf r
      else plain_loop rooted true (c :: addSep rooted buf) r
  end.

(** [filepath.Join(a, b)]: the elements from the first non-empty one on are
    joined with the separator and cleaned; all empty gives the empty string. *)
Definition Join (a b : string) : string :=
  match a, b with
  | EmptyString, EmptyString => EmptyString
  | EmptyString, _ => Clean b
  | _, _ => Clean (a +:+ "/" +:+ b)
  end.

(** The index just past the last separator of [s] ([0] when there is none). *)
Fixpoint afterLastSep (s : string) : nat :=
  match s with
  | EmptyString => O
  | String c r =>
      let k := afterLastSep r in
      if (0 <? k)%nat then S k else if isSep c then 1%nat else O
  end.

Definition Dir (path : string) : string :=
  Clean (GoStrings.take (afterLastSep path) path).

(** [path] without its trailing separators. *)
Fixpoint stripTrailingSeps (s : string) : string :=
  match s with
  | EmptyString => EmptyString
  | String c r =>
      match stripTrailingSeps r with
      | EmptyString => if isSep c then EmptyString else String c EmptyString
      | r' => String c r'
      end
  end.

Definition Base (path : string) : string :=
  match path with
  | EmptyString => "."
  | _ =>
      let p := stripTrailingSeps path in
      let p := GoStrings.drop (afterLastSep p) p in
      match p with
      | EmptyString => "/"
      | _ => p
      end
  end.

End GoFilepath.

(** ** Go values shared by the packages *)

(** An [error] value that is not nil.  [Errorf] is what [fmt.Errorf]
    builds: the formatted text, and the operand of [%w] when the format
    has one.  [External] is an error produced outside the repository: its
    [Error()] text, and whether [os.IsNotExist] reports true of it. *)
Inductive error_value : Type :=
| Errorf (text : string) (wrapped : option error_value)
| External (text : string) (notExist : bool).

(** Go's [error] interface: [None] is [nil]. *)
Definition error : Type := option error_value.

Definition Error (e : error_value) : string :=
  match e with
  | Errorf text _ => text
  | External text _ => text
  end.

(** [os.IsNotExist] looks at the error it is given and does not unwrap
    what [fmt.Errorf] wrapped. *)
Definition os_IsNotExist (e : error_value) : bool :=
  match e with
  | Errorf _ _ => false
  | External _ b => b
  end.

(** The [(value, error)] pair an external call returns: a value or a
    non-nil error. *)
Inductive res (T : Type) : Type :=
| Ok (v : T)
| Fail (e : error_value).
Arguments Ok {T} v.
Arguments Fail {T} e.

(** Open files, connections, sessions, response bodies and readers are
    opaque handles; [context.Context] and [time.Time] are opaque too. *)
Definition Handle : Type := nat.
Definition Context : Type := nat.
Definition Time : Type := Z.
Definition FileMode : Type := Z.

(** The permission literals [0644] and [0755]. *)
Definition perm_0644 : FileMode := 6 * 64 + 4 * 8 + 4.
Definition perm_0755 : FileMode := 7 * 64 + 5 * 8 + 5.

(** [client.FileInfo]. *)
Record FileInfo : Type := mkFileInfo {
  Name : string;
  Size : Z;
  ModTime : Time;
  IsDir : bool;
  Mode : FileMode;
  Path : string
}.

(** What an [os.FileInfo] answers to [Name()], [Size()], [ModTime()],
    [IsDir()] and [Mode()]. *)
Record OsFileInfo : Type := mkOsFileInfo {
  fi_Name : string;
  fi_Size : Z;
  fi_ModTime : Time;
  fi_IsDir : bool;
  fi_Mode : FileMode
}.

(** An [os.DirEntry]: [Name()] and [IsDir()] are stored, [Info()] is a
    call; [de_id] tells entries apart. *)
Record DirEntry : Type := mkDirEntry {
  de_Name : string;
  de_IsDir : bool;
  de_id : nat
}.

(** [ftp.Entry] of github.com/jlaffaye/ftp; [ftp_Size] is a uint64. *)
Inductive EntryType : Type := EntryTypeFile | EntryTypeFolder | EntryTypeLink.

Record FtpEntry : Type := mkFtpEntry {
  ftp_Name : string;
  ftp_Size : Z;
  ftp_Time : Time;
  ftp_Type : EntryType
}.

(** ** [net/url] and [net/http] values *)

(** [url.Userinfo]: the user name and the optional password of a URL. *)
Record Userinfo : Type := mkUserinfo {
  username : string;
  password : string;
  passwordSet : bool
}.

(** [url.URL], field by field; [User] is a [*Userinfo], [None] the nil
    pointer, and [UPath] is the field [Path]. *)
Record URL : Type := mkURL {
  Scheme : string;
  Opaque : string;
  User : option Userinfo;
  Host : string;
  UPath : string;
  RawPath : string;
  OmitHost : bool;
  ForceQuery : bool;
  RawQuery : string;
  Fragment : string;
  RawFragment : string
}.

(** The assignment [u.Path = p]: every other field, [RawPath] too, stays. *)
Definition set_UPath (u : URL) (p : string) : URL :=
  {| Scheme := Scheme u; Opaque := Opaque u; User := User u; Host := Host u;
     UPath := p; RawPath := RawPath u; OmitHost := OmitHost u;
     ForceQuery := ForceQuery u; RawQuery := RawQuery u;
     Fragment := Fragment u; RawFragment := RawFragment u |}.

Inductive ReqBody : Type :=
| NoBody
| BodyReader (r : Handle)
| BodyString (s : string).

(** An [*http.Request] as the adapters leave it before [client.Do]. *)
Record Request : Type := mkRequest {
  rq_ctx : Context;
  rq_Method : string;
  rq_URL : string;
  rq_BasicAuth : option (string * string);
  rq_Header : list (string * string);
  rq_Body : ReqBody;
  rq_ContentLength : Z
}.

Record Response : Type := mkResponse {
  StatusCode : Z;
  rs_Header : gmap string string;
  rs_Body : Handle
}.

(** [resp.Header.Get(key)]: the empty string when the header is absent. *)
Definition Header_Get (r : Response) (key : string) : string :=
  default EmptyString (rs_Header r !! key).

Definition StatusOK : Z := 200.
Definition StatusMultiStatus : Z := 207.

(** ** External calls *)

(** Every call that leaves the repository, with the type of what it
    returns.  Methods take their receiver as first argument. *)
Inductive Call : Type -> Type :=
(* os, io, syscall, time *)
| os_Stat (name : string) : Call (res OsFileInfo)
| os_Open (name : string) : Call (res Handle)
| os_Create (name : string) : Call (res Handle)
| os_MkdirAll (path : string) (perm : FileMode) : Call error
| os_ReadDir (name : string) : Call (res (list DirEntry))
| DirEntry_Info (e : DirEntry) : Call (res OsFileInfo)
| os_RemoveAll (path : string) : Call error
| os_Remove (name : string) : Call error
| File_Close (f : Handle) : Call error
| io_Copy (dst src : Handle) : Call (Z * error)
| io_ReadAll (r : Handle) : Call (res string)
| syscall_Mount (source target fstype : string) (flags : Z) (data : string)
  : Call error
| syscall_Unmount (target : string) (flags : Z) : Call error
| time_Now : Call Time
| time_Parse (layout value : string) : Call (res Time)
(* net and github.com/hirochachacha/go-smb2 *)
| net_Dial (network address : string) : Call (res Handle)
| Conn_Close (conn : Handle) : Call error
| smb2_Dial (conn : Handle) (user password domain : string) : Call (res Handle)
| Session_Mount (session : Handle) (sharename : string) : Call (res Handle)
| Session_Logoff (session : Handle) : Call error
| Share_Umount (share : Handle) : Call error
| Share_Open (share : Handle) (name : string) : Call (res Handle)
| Share_Create (share : Handle) (name : string) : Call (res Handle)
| Share_Stat (share : Handle) (name : string) : Call (res OsFileInfo)
| Share_ReadDir (share : Handle) (name : string) : Call (res (list OsFileInfo))
| Share_Remove (share : Handle) (name : string) : Call error
| Share_Mkdir (share : Handle) (name : string) (perm : FileMode) : Call error
(* github.com/jlaffaye/ftp *)
| ftp_Dial (addr : string) (timeoutSeconds : Z) : Call (res Handle)
| ftp_Login (c : Handle) (user password : string) : Call error
| ftp_Quit (c : Handle) : Call error
| ftp_ChangeDir (c : Handle) (path : string) : Call error
| ftp_CurrentDir (c : Handle) : Call (res string)
| ftp_Retr (c : Handle) (path : string) : Call (res Handle)
| ftp_Stor (c : Handle) (path : string) (r : Handle) : Call error
| ftp_MakeDir (c : Handle) (path : string) : Call error
| ftp_FileSize (c : Handle) (path : string) : Call (res Z)
| ftp_List (c : Handle) (path : string) : Call (res (list FtpEntry))
| ftp_RemoveDir (c : Handle) (path : string) : Call error
| ftp_Delete (c : Handle) (path : string) : Call error
(* net/url and net/http *)
| url_Parse (rawURL : string) : Call (res URL)
| http_NewRequestWithContext (ctx : Context) (method url : string) : Call error
| http_Do (req : Request) : Call (res Response).

(** A method body: it returns, panics, or makes an external call and
    goes on with the answer. *)
Inductive Prog (A : Type) : Type :=
| Ret (a : A)
| Panic (msg : string)
| Vis (R : Type) (e : Call R) (k : R -> Prog A).
Arguments Ret {A} a.
Arguments Panic {A} msg.
Arguments Vis {A R} e k.

Fixpoint bind {A B : Type} (m : Prog A) (f : A -> Prog B) : Prog B :=
  match m with
  | Ret a => f a
  | Panic msg => Panic msg
  | Vis e k => Vis e (fun r => bind (k r) f)
  end.

Definition call {R : Type} (e : Call R) : Prog R := Vis e Ret.

Notation "x <- m ;; k" := (bind m (fun x => k))
  (at level 100, m at next level, right associativity).
Notation "m ;;; k" := (bind m (fun _ => k))
  (at level 100, k at level 200, right associativity).

(** The environment answers each call and may change. *)
Definition handler (W : Type) : Type := forall R : Type, Call R -> W -> R * W.

Inductive outcome (A W : Type) : Type :=
| Done (a : A) (w : W)
| Panicked (msg : string) (w : W).
Arguments Done {A W} a w.
Arguments Panicked {A W} msg w.

Fixpoint run {W A : Type} (h : handler W) (p : Prog A) (w : W) : outcome A W :=
  match p with
  | Ret a => Done a w
  | Panic msg => Panicked msg w
  | Vis e k => let '(r, w') := h _ e w in run h (k r) w'
  end.

(** The external calls a run makes, in order. *)
Fixpoint calls {W A : Type} (h : handler W) (p : Prog A) (w : W)
  : list {R : Type & Call R} :=
  match p with
  | Ret _ => []
  | Panic _ => []
  | Vis e k => let '(r, w') := h _ e w in existT _ e :: calls h (k r) w'
  end.

(** ** The uniform contract: [client.Client] *)

Definition errorf (text : string) : error := Some (Errorf text None).

(** [fmt.Errorf(text + ": %w", err)]. *)
Definition wrapf (text : string) (err : error_value) : error :=
  Some (Errorf (text +:+ ": " +:+ Error err) (Some err)).

Definition res_error {T : Type} (r : res T) : error :=
  match r with
  | Ok _ => None
  | Fail e => Some e
  end.

(** The methods of the [Client] interface over an adapter's state.  A Go
    method with a pointer receiver may assign to the receiver's fields,
    so every method returns the state it leaves. *)
Record Adapter : Type := mkAdapter {
  State : Type;
  a_Connect : Context -> State -> Prog (error * State);
  a_Disconnect : Context -> State -> Prog (error * State);
  a_IsConnected : State -> Prog bool;
  a_TestConnection : Context -> State -> Prog (error * State);
  a_ReadFile : Context -> State -> string -> Prog (option Handle * error * State);
  a_WriteFile : Context -> State -> string -> Handle -> Prog (error * State);
  a_GetFileInfo : Context -> State -> string
                  -> Prog (option FileInfo * error * State);
  a_FileExists : Context -> State -> string -> Prog (bool * error * State);
  a_DeleteFile : Context -> State -> string -> Prog (error * State);
  a_CopyFile : Context -> State -> string -> string -> Prog (error * State);
  a_ListDirectory : Context -> State -> string
                    -> Prog (list FileInfo * error * State);
  a_CreateDirectory : Context -> State -> string -> Prog (error * State);
  a_DeleteDirectory : Context -> State -> string -> Prog (error * State);
  a_GetProtocol : string
}.

(** ** Package [local] *)

Module Local.

Record Config : Type := mkConfig { BasePath : string }.

Record Client : Type := mkClient {
  config : Config;
  basePath : string;
  connected : bool
}.

Definition set_connected (b : bool) (c : Client) : Client :=
  {| config := config c; basePath := basePath c; connected := b |}.

Definition NewLocalClient (cfg : Config) : Client :=
  {| config := cfg; basePath := BasePath cfg; connected := false |}.

Definition Connect (ctx : Context) (c : Client) : Prog (error * Client) :=
  r <- call (os_Stat (basePath c));;
  match r with
  | Fail err =>
      Ret (wrapf ("failed to access base path " +:+ basePath c) err, c)
  | Ok info =>
      if negb (fi_IsDir info)
      then Ret (errorf ("base path " +:+ basePath c +:+ " is not a directory"), c)
      else Ret (None, set_connected true c)
  end.

Definition Disconnect (ctx : Context) (c : Client) : Prog (error * Client) :=
  Ret (None, set_connected false c).

Definition IsConnected (c : Client) : bool := connected c.

Definition TestConnection (ctx : Context) (c : Client) : Prog (error * Client) :=
  if negb (IsConnected c) then Ret (errorf "not connected", c)
  else
    r <- call (os_Stat (basePath c));;
    Ret (res_error r, c).

Definition resolvePath (c : Client) (path : string) : string :=
  let cleanPath := GoFilepath.Clean path in
  let cleanPath := if GoStrings.Contains cleanPath ".."
                   then GoStrings.ReplaceAll cleanPath ".." ""
                   else cleanPath in
  GoFilepath.Join (basePath c) cleanPath.

Definition ReadFile (ctx : Context) (c : Client) (path : string)
  : Prog (option Handle * error * Client) :=
  if negb (IsConnected c) then Ret (None, errorf "not connected", c)
  else
    let fullPath := resolvePath c path in
    r <- call (os_Open fullPath);;
    match r with
    | Fail err => Ret (None, wrapf ("failed to open local file " +:+ fullPath) err, c)
    | Ok file => Ret (Some file, None, c)
    end.

Definition WriteFile (ctx : Context) (c : Client) (path : string) (data : Handle)
  : Prog (error * Client) :=
  if negb (IsConnected c) then Ret (errorf "not connected", c)
  else
    let fullPath := resolvePath c path in
    let dir := GoFilepath.Dir fullPath in
    e <- call (os_MkdirAll dir perm_0755);;
    match e with
    | Some err => Ret (wrapf ("failed to create directory " +:+ dir) err, c)
    | None =>
        r <- call (os_Create fullPath);;
        match r with
        | Fail err =>
            Ret (wrapf ("failed to create local file " +:+ fullPath) err, c)
        | Ok file =>
            cp <- call (io_Copy file data);;
            _ <- call (File_Close file);;
            match snd cp with
            | Some err =>
                Ret (wrapf ("failed to write local file " +:+ fullPath) err, c)
            | None => Ret (None, c)
            end
        end
    end.

Definition GetFileInfo (ctx : Context) (c : Client) (path : string)
  : Prog (option FileInfo * error * Client) :=
  if negb (IsConnected c) then Ret (None, errorf "not connected", c)
  else
    let fullPath := resolvePath c path in
    r <- call (os_Stat fullPath);;
    match r with
    | Fail err => Ret (None, wrapf ("failed to stat local file " +:+ fullPath) err, c)
    | Ok stat =>
        Ret (Some {| Name := fi_Name stat; Size := fi_Size stat;
                     ModTime := fi_ModTime stat; IsDir := fi_IsDir stat;
                     Mode := fi_Mode stat; Path := path |}, None, c)
    end.

(** The [for _, entry := range entries] loop of [ListDirectory]. *)
Fixpoint listEntries (path : string) (entries : list DirEntry)
  (files : list FileInfo) : Prog (list FileInfo) :=
  match entries with
  | [] => Ret files
  | entry :: rest =>
      r <- call (DirEntry_Info entry);;
      match r with
      | Fail _ => listEntries path rest files
      | Ok info =>
          listEntries path rest
            (files ++ [{| Name := de_Name entry; Size := fi_Size info;
                          ModTime := fi_ModTime info; IsDir := de_IsDir entry;
                          Mode := fi_Mode info;
                          Path := GoFilepath.Join path (de_Name entry) |}])
      end
  end.

Definition ListDirectory (ctx : Context) (c : Client) (path : string)
  : Prog (list FileInfo * error * Client) :=
  if negb (IsConnected c) then Ret ([], errorf "not connected", c)
  else
    let fullPath := resolvePath c path in
    r <- call (os_ReadDir fullPath);;
    match r with
    | Fail err =>
        Ret ([], wrapf ("failed to list local directory " +:+ fullPath) err, c)
    | Ok entries =>
        files <- listEntries path entries [];;
        Ret (files, None, c)
    end.

Definition FileExists (ctx : Context) (c : Client) (path : string)
  : Prog (bool * error * Client) :=
  if negb (IsConnected c) then Ret (false, errorf "not connected", c)
  else
    let fullPath := resolvePath c path in
    r <- call (os_Stat fullPath);;
    match r with
    | Fail err =>
        if os_IsNotExist err then Ret (false, None, c)
        else Ret (false,
                  wrapf ("failed to check local file existence " +:+ fullPath) err,
                  c)
    | Ok _ => Ret (true, None, c)
    end.

Definition CreateDirectory (ctx : Context) (c : Client) (path : string)
  : Prog (error * Client) :=
  if negb (IsConnected c) then Ret (errorf "not connected", c)
  else
    let fullPath := resolvePath c path in
    e <- call (os_MkdirAll fullPath perm_0755);;
    match e with
    | Some err =>
        Ret (wrapf ("failed to create local directory " +:+ fullPath) err, c)
    | None => Ret (None, c)
    end.

Definition DeleteDirectory (ctx : Context) (c : Client) (path : string)
  : Prog (error * Client) :=
  if negb (IsConnected c) then Ret (errorf "not connected", c)
  else
    let fullPath := resolvePath c path in
    e <- call (os_RemoveAll fullPath);;
    match e with
    | Some err =>
        Ret (wrapf ("failed to delete local directory " +:+ fullPath) err, c)
    | None => Ret (None, c)
    end.

Definition DeleteFile (ctx : Context) (c : Client) (path : string)
  : Prog (error * Client) :=
  if negb (IsConnected c) then Ret (errorf "not connected", c)
  else
    let fullPath := resolvePath c path in
    e <- call (os_Remove fullPath);;
    match e with
    | Some err => Ret (wrapf ("failed to delete local file " +:+ fullPath) err, c)
    | None => Ret (None, c)
    end.

Definition CopyFile (ctx : Context) (c : Client) (srcPath dstPath : string)
  : Prog (error * Client) :=
  if negb (IsConnected c) then Ret (errorf "not connected", c)
  else
    let srcFullPath := resolvePath c srcPath in
    let dstFullPath := resolvePath c dstPath in
    let dstDir := GoFilepath.Dir dstFullPath in
    e <- call (os_MkdirAll dstDir perm_0755);;
    match e with
    | Some err =>
        Ret (wrapf ("failed to create destination directory " +:+ dstDir) err, c)
    | None =>
        r <- call (os_Open srcFullPath);;
        match r with
        | Fail err =>
            Ret (wrapf ("failed to open source file " +:+ srcFullPath) err, c)
        | Ok srcFile =>
            r2 <- call (os_Create dstFullPath);;
            match r2 with
            | Fail err =>
                _ <- call (File_Close srcFile);;
                Ret (wrapf ("failed to create destination file " +:+ dstFullPath)
                       err, c)
            | Ok dstFile =>
                cp <- call (io_Copy dstFile srcFile);;
                _ <- call (File_Close dstFile);;
                _ <- call (File_Close srcFile);;
                match snd cp with
                | Some err =>
                    Ret (wrapf ("failed to copy file from " +:+ srcFullPath
                                +:+ " to " +:+ dstFullPath) err, c)
                | None => Ret (None, c)
                end
            end
        end
    end.

Definition GetProtocol : string := "local".

Definition GetConfig (c : Client) : Config := config c.

Definition adapter : Adapter :=
  {| State := Client;
     a_Connect := Connect;
     a_Disconnect := Disconnect;
     a_IsConnected := fun c => Ret (IsConnected c);
     a_TestConnection := TestConnection;
     a_ReadFile := ReadFile;
     a_WriteFile := WriteFile;
     a_GetFileInfo := GetFileInfo;
     a_FileExists := FileExists;
     a_DeleteFile := DeleteFile;
     a_CopyFile := CopyFile;
     a_ListDirectory := ListDirectory;
     a_CreateDirectory := CreateDirectory;
     a_DeleteDirectory := DeleteDirectory;
     a_GetProtocol := GetProtocol |}.

End Local.

(** ** Package [nfs] (Linux build) *)

Module NFS.

Record Config : Type := mkConfig {
  CHost : string;
  CPath : string;
  MountPoint : string;
  Options : string
}.

Record Client : Type := mkClient {
  config : Config;
  mounted : bool;
  connected : bool;
  mountPoint : string
}.

Definition set_connected (b : bool) (c : Client) : Client :=
  {| config := config c; mounted := mounted c; connected := b;
     mountPoint := mountPoint c |}.

Definition set_mounted (b : bool) (c : Client) : Client :=
  {| config := config c; mounted := b; connected := connected c;
     mountPoint := mountPoint c |}.

Definition NewNFSClient (cfg : Config) : option Client * error :=
  if String.eqb (MountPoint cfg) "" then (None, errorf "mount point is required")
  else (Some {| config := cfg; mounted := false; connected := false;
                mountPoint := MountPoint cfg |}, None).

(** [isMounted] opens [/proc/mounts] and reports whether that worked. *)
Definition isMounted (c : Client) : Prog bool :=
  r <- call (os_Open "/proc/mounts");;
  match r with
  | Fail _ => Ret false
  | Ok file => _ <- call (File_Close file);; Ret true
  end.

Definition Connect (ctx : Context) (c : Client) : Prog (error * Client) :=
  m <- isMounted c;;
  if (m : bool) then Ret (None, set_connected true c)
  else
    e <- call (os_MkdirAll (mountPoint c) perm_0755);;
    match e with
    | Some err =>
        Ret (wrapf ("failed to create mount point " +:+ mountPoint c) err, c)
    | None =>
        let source := CHost (config c) +:+ ":" +:+ CPath (config c) in
        let options := if negb (String.eqb (Options (config c)) "")
                       then Options (config c) else "vers=3" in
        e2 <- call (syscall_Mount source (mountPoint c) "nfs" 0 options);;
        match e2 with
        | Some err =>
            Ret (wrapf ("failed to mount NFS share " +:+ source +:+ " to "
                        +:+ mountPoint c) err, c)
        | None => Ret (None, set_connected true (set_mounted true c))
        end
    end.

Definition Disconnect (ctx : Context) (c : Client) : Prog (error * Client) :=
  if mounted c then
    e <- call (syscall_Unmount (mountPoint c) 0);;
    match e with
    | Some err =>
        Ret (wrapf ("failed to unmount NFS share from " +:+ mountPoint c) err, c)
    | None => Ret (None, set_connected false (set_mounted false c))
    end
  else Ret (None, set_connected false c).

(** [c.connected && c.mounted && c.isMounted()]: [&&] evaluates
    [isMounted] only when both flags are set. *)
Definition IsConnected (c : Client) : Prog bool :=
  if connected c && mounted c then isMounted c else Ret false.

Definition TestConnection (ctx : Context) (c : Client) : Prog (error * Client) :=
  b <- IsConnected c;;
  if negb b then Ret (errorf "not connected", c)
  else
    r <- call (os_Stat (mountPoint c));;
    Ret (res_error r, c).

Definition resolvePath (c : Client) (path : string) : string :=
  let cleanPath := GoFilepath.Clean path in
  let cleanPath := if GoStrings.Contains cleanPath ".."
                   then GoStrings.ReplaceAll cleanPath ".." ""
                   else cleanPath in
  GoFilepath.Join (mountPoint c) cleanPath.

Definition ReadFile (ctx : Context) (c : Client) (path : string)
  : Prog (option Handle * error * Client) :=
  b <- IsConnected c;;
  if negb b then Ret (None, errorf "not connected", c)
  else
    let fullPath := resolvePath c path in
    r <- call (os_Open fullPath);;
    match r with
    | Fail err => Ret (None, wrapf ("failed to open NFS file " +:+ fullPath) err, c)
    | Ok file => Ret (Some file, None, c)
    end.

Definition WriteFile (ctx : Context) (c : Client) (path : string) (data : Handle)
  : Prog (error * Client) :=
  b <- IsConnected c;;
  if negb b then Ret (errorf "not connected", c)
  else
    let fullPath := resolvePath c path in
    let dir := GoFilepath.Dir fullPath in
    e <- call (os_MkdirAll dir perm_0755);;
    match e with
    | Some err => Ret (wrapf ("failed to create directory " +:+ dir) err, c)
    | None =>
        r <- call (os_Create fullPath);;
        match r with
        | Fail err =>
            Ret (wrapf ("failed to create NFS file " +:+ fullPath) err, c)
        | Ok file =>
            cp <- call (io_Copy file data);;
            _ <- call (File_Close file);;
            match snd cp with
            | Some err =>
                Ret (wrapf ("failed to write NFS file " +:+ fullPath) err, c)
            | None => Ret (None, c)
            end
        end
    end.

Definition GetFileInfo (ctx : Context) (c : Client) (path : string)
  : Prog (option FileInfo * error * Client) :=
  b <- IsConnected c;;
  if negb b then Ret (None, errorf "not connected", c)
  else
    let fullPath := resolvePath c path in
    r <- call (os_Stat fullPath);;
    match r with
    | Fail err => Ret (None, wrapf ("failed to stat NFS file " +:+ fullPath) err, c)
    | Ok stat =>
        Ret (Some {| Name := fi_Name stat; Size := fi_Size stat;
                     ModTime := fi_ModTime stat; IsDir := fi_IsDir stat;
                     Mode := fi_Mode stat; Path := path |}, None, c)
    end.

Definition ListDirectory (ctx : Context) (c : Client) (path : string)
  : Prog (list FileInfo * error * Client) :=
  b <- IsConnected c;;
  if negb b then Ret ([], errorf "not connected", c)
  else
    let fullPath := resolvePath c path in
    r <- call (os_ReadDir fullPath);;
    match r with
    | Fail err =>
        Ret ([], wrapf ("failed to list NFS directory " +:+ fullPath) err, c)
    | Ok entries =>
        files <- Local.listEntries path entries [];;
        Ret (files, None, c)
    end.

Definition FileExists (ctx : Context) (c : Client) (path : string)
  : Prog (bool * error * Client) :=
  b <- IsConnected c;;
  if negb b then Ret (false, errorf "not connected", c)
  else
    let fullPath := resolvePath c path in
    r <- call (os_Stat fullPath);;
    match r with
    | Fail err =>
        if os_IsNotExist err then Ret (false, None, c)
        else Ret (false,
                  wrapf ("failed to check NFS file existence " +:+ fullPath) err,
                  c)
    | Ok _ => Ret (true, None, c)
    end.

Definition CreateDirectory (ctx : Context) (c : Client) (path : string)
  : Prog (error * Client) :=
  b <- IsConnected c;;
  if negb b then Ret (errorf "not connected", c)
  else
    let fullPath := resolvePath c path in
    e <- call (os_MkdirAll fullPath perm_0755);;
    match e with
    | Some err =>
        Ret (wrapf ("failed to create NFS directory " +:+ fullPath) err, c)
    | None => Ret (None, c)
    end.

Definition DeleteDirectory (ctx : Context) (c : Client) (path : string)
  : Prog (error * Client) :=
  b <- IsConnected c;;
  if negb b then Ret (errorf "not connected", c)
  else
    let fullPath := resolvePath c path in
    e <- call (os_RemoveAll fullPath);;
    match e with
    | Some err =>
        Ret (wrapf ("failed to delete NFS directory " +:+ fullPath) err, c)
    | None => Ret (None, c)
    end.

Definition DeleteFile (ctx : Context) (c : Client) (path : string)
  : Prog (error * Client) :=
  b <- IsConnected c;;
  if negb b then Ret (errorf "not connected", c)
  else
    let fullPath := resolvePath c path in
    e <- call (os_Remove fullPath);;
    match e with
    | Some err => Ret (wrapf ("failed to delete NFS file " +:+ fullPath) err, c)
    | None => Ret (None, c)
    end.

Definition CopyFile (ctx : Context) (c : Client) (srcPath dstPath : string)
  : Prog (error * Client) :=
  b <- IsConnected c;;
  if negb b then Ret (errorf "not connected", c)
  else
    let srcFullPath := resolvePath c srcPath in
    let dstFullPath := resolvePath c dstPath in
    let dstDir := GoFilepath.Dir dstFullPath in
    e <- call (os_MkdirAll dstDir perm_0755);;
    match e with
    | Some err =>
        Ret (wrapf ("failed to create destination directory " +:+ dstDir) err, c)
    | None =>
        r <- call (os_Open srcFullPath);;
        match r with
        | Fail err =>
            Ret (wrapf ("failed to open source file " +:+ srcFullPath) err, c)
        | Ok srcFile =>
            r2 <- call (os_Create dstFullPath);;
            match r2 with
            | Fail err =>
                _ <- call (File_Close srcFile);;
                Ret (wrapf ("failed to create destination file " +:+ dstFullPath)
                       err, c)
            | Ok dstFile =>
                cp <- call (io_Copy dstFile srcFile);;
                _ <- call (File_Close dstFile);;
                _ <- call (File_Close srcFile);;
                match snd cp with
                | Some err =>
                    Ret (wrapf ("failed to copy file from " +:+ srcFullPath
                                +:+ " to " +:+ dstFullPath) err, c)
                | None => Ret (None, c)
                end
            end
        end
    end.

Definition GetProtocol : string := "nfs".

Definition GetConfig (c : Client) : Config := config c.

Definition adapter : Adapter :=
  {| State := Client;
     a_Connect := Connect;
     a_Disconnect := Disconnect;
     a_IsConnected := IsConnected;
     a_TestConnection := TestConnection;
     a_ReadFile := ReadFile;
     a_WriteFile := WriteFile;
     a_GetFileInfo := GetFileInfo;
     a_FileExists := FileExists;
     a_DeleteFile := DeleteFile;
     a_CopyFile := CopyFile;
     a_ListDirectory := ListDirectory;
     a_CreateDirectory := CreateDirectory;
     a_DeleteDirectory := DeleteDirectory;
     a_GetProtocol := GetProtocol |}.

End NFS.

(** ** Package [ftp] *)

Module FTP.

Record Config : Type := mkConfig {
  CHost : string;
  CPort : Z;
  Username : string;
  Password : string;
  CPath : string
}.

(** [client] is the [*goftp.ServerConn]; [None] is the nil pointer. *)
Record Client : Type := mkClient {
  config : Config;
  client : option Handle;
  connected : bool
}.

Definition NewFTPClient (cfg : Config) : Client :=
  {| config := cfg; client := None; connected := false |}.

(** [net.JoinHostPort]. *)
Definition JoinHostPort (host port : string) : string :=
  if GoStrings.ContainsByte host ":" then "[" +:+ host +:+ "]:" +:+ port
  else host +:+ ":" +:+ port.

Definition Connect (ctx : Context) (c : Client) : Prog (error * Client) :=
  let addr := JoinHostPort (CHost (config c)) (GoStrconv.Itoa (CPort (config c))) in
  r <- call (ftp_Dial addr 30);;
  match r with
  | Fail err => Ret (wrapf "failed to connect to FTP server" err, c)
  | Ok ftpClient =>
      e <- call (ftp_Login ftpClient (Username (config c)) (Password (config c)));;
      match e with
      | Some err =>
          _ <- call (ftp_Quit ftpClient);;
          Ret (wrapf "failed to login to FTP server" err, c)
      | None =>
          let finish := {| config := config c; client := Some ftpClient;
                           connected := true |} in
          if negb (String.eqb (CPath (config c)) "") then
            e2 <- call (ftp_ChangeDir ftpClient (CPath (config c)));;
            match e2 with
            | Some err =>
                _ <- call (ftp_Quit ftpClient);;
                Ret (wrapf ("failed to change to base directory "
                            +:+ CPath (config c)) err, c)
            | None => Ret (None, finish)
            end
          else Ret (None, finish)
      end
  end.

Definition Disconnect (ctx : Context) (c : Client) : Prog (error * Client) :=
  match client c with
  | Some conn =>
      err <- call (ftp_Quit conn);;
      Ret (err, {| config := config c; client := None; connected := false |})
  | None =>
      Ret (None, {| config := config c; client := client c; connected := false |})
  end.

Definition IsConnected (c : Client) : bool :=
  connected c && match client c with Some _ => true | None => false end.

(** The receiver of a call on [c.client]; a nil pointer panics. *)
Definition conn_of (c : Client) : Prog Handle :=
  match client c with
  | Some conn => Ret conn
  | None => Panic "invalid memory address or nil pointer dereference"
  end.

Definition TestConnection (ctx : Context) (c : Client) : Prog (error * Client) :=
  if negb (IsConnected c) then Ret (errorf "not connected", c)
  else
    conn <- conn_of c;;
    r <- call (ftp_CurrentDir conn);;
    Ret (res_error r, c).

Definition resolvePath (c : Client) (path : string) : string :=
  if negb (String.eqb (CPath (config c)) "")
  then CPath (config c) +:+ "/" +:+ path
  else path.

Definition ReadFile (ctx : Context) (c : Client) (path : string)
  : Prog (option Handle * error * Client) :=
  if negb (IsConnected c) then Ret (None, errorf "not connected", c)
  else
    let fullPath := resolvePath c path in
    conn <- conn_of c;;
    r <- call (ftp_Retr conn fullPath);;
    match r with
    | Fail err =>
        Ret (None, wrapf ("failed to retrieve FTP file " +:+ fullPath) err, c)
    | Ok resp => Ret (Some resp, None, c)
    end.

Definition WriteFile (ctx : Context) (c : Client) (path : string) (data : Handle)
  : Prog (error * Client) :=
  if negb (IsConnected c) then Ret (errorf "not connected", c)
  else
    let fullPath := resolvePath c path in
    let dir := GoFilepath.Dir fullPath in
    conn <- conn_of c;;
    _ <- (if negb (String.eqb dir ".") && negb (String.eqb dir "/")
          then call (ftp_MakeDir conn dir) else Ret None);;
    e <- call (ftp_Stor conn fullPath data);;
    match e with
    | Some err => Ret (wrapf ("failed to store FTP file " +:+ fullPath) err, c)
    | None => Ret (None, c)
    end.

Definition GetFileInfo (ctx : Context) (c : Client) (path : string)
  : Prog (option FileInfo * error * Client) :=
  if negb (IsConnected c) then Ret (None, errorf "not connected", c)
  else
    let fullPath := resolvePath c path in
    conn <- conn_of c;;
    r <- call (ftp_FileSize conn fullPath);;
    match r with
    | Fail err =>
        Ret (None, wrapf ("failed to get FTP file info " +:+ fullPath) err, c)
    | Ok size =>
        modTime <- call time_Now;;
        l <- call (ftp_List conn fullPath);;
        let isDir := match l with Ok _ => true | Fail _ => false end in
        Ret (Some {| Name := GoFilepath.Base path; Size := size;
                     ModTime := modTime; IsDir := isDir; Mode := perm_0644;
                     Path := path |}, None, c)
    end.

(** The conversion [int64(x)] of a uint64. *)
Definition int64_of_uint64 (x : Z) : Z :=
  if x <? 2 ^ 63 then x else x - 2 ^ 64.

(** The size of one listed entry: [int64(entry.Size)], replaced by
    [1<<63 - 1] when [entry.Size > uint64(1<<63-1)]. *)
Definition entrySize (entry : FtpEntry) : Z :=
  let size := int64_of_uint64 (ftp_Size entry) in
  if 2 ^ 63 - 1 <? ftp_Size entry then 2 ^ 63 - 1 else size.

Definition entryInfo (path : string) (entry : FtpEntry) : FileInfo :=
  {| Name := ftp_Name entry;
     Size := entrySize entry;
     ModTime := ftp_Time entry;
     IsDir := match ftp_Type entry with EntryTypeFolder => true | _ => false end;
     Mode := perm_0644;
     Path := path +:+ "/" +:+ ftp_Name entry |}.

Definition ListDirectory (ctx : Context) (c : Client) (path : string)
  : Prog (list FileInfo * error * Client) :=
  if negb (IsConnected c) then Ret ([], errorf "not connected", c)
  else
    let fullPath := resolvePath c path in
    conn <- conn_of c;;
    r <- call (ftp_List conn fullPath);;
    match r with
    | Fail err =>
        Ret ([], wrapf ("failed to list FTP directory " +:+ fullPath) err, c)
    | Ok entries => Ret (map (entryInfo path) entries, None, c)
    end.

Definition FileExists (ctx : Context) (c : Client) (path : string)
  : Prog (bool * error * Client) :=
  if negb (IsConnected c) then Ret (false, errorf "not connected", c)
  else
    let fullPath := resolvePath c path in
    conn <- conn_of c;;
    r <- call (ftp_FileSize conn fullPath);;
    match r with
    | Fail _ =>
        let dir := GoFilepath.Dir fullPath in
        let name := GoFilepath.Base fullPath in
        l <- call (ftp_List conn dir);;
        match l with
        | Fail err =>
            Ret (false,
                 wrapf ("failed to check FTP file existence " +:+ fullPath) err, c)
        | Ok entries =>
            Ret (existsb (fun entry => String.eqb (ftp_Name entry) name) entries,
                 None, c)
        end
    | Ok _ => Ret (true, None, c)
    end.

Definition CreateDirectory (ctx : Context) (c : Client) (path : string)
  : Prog (error * Client) :=
  if negb (IsConnected c) then Ret (errorf "not connected", c)
  else
    let fullPath := resolvePath c path in
    conn <- conn_of c;;
    e <- call (ftp_MakeDir conn fullPath);;
    match e with
    | Some err =>
        Ret (wrapf ("failed to create FTP directory " +:+ fullPath) err, c)
    | None => Ret (None, c)
    end.

Definition DeleteDirectory (ctx : Context) (c : Client) (path : string)
  : Prog (error * Client) :=
  if negb (IsConnected c) then Ret (errorf "not connected", c)
  else
    let fullPath := resolvePath c path in
    conn <- conn_of c;;
    e <- call (ftp_RemoveDir conn fullPath);;
    match e with
    | Some err =>
        Ret (wrapf ("failed to delete FTP directory " +:+ fullPath) err, c)
    | None => Ret (None, c)
    end.

Definition DeleteFile (ctx : Context) (c : Client) (path : string)
  : Prog (error * Client) :=
  if negb (IsConnected c) then Ret (errorf "not connected", c)
  else
    let fullPath := resolvePath c path in
    conn <- conn_of c;;
    e <- call (ftp_Delete conn fullPath);;
    match e with
    | Some err => Ret (wrapf ("failed to delete FTP file " +:+ fullPath) err, c)
    | None => Ret (None, c)
    end.

Definition CopyFile (ctx : Context) (c : Client) (srcPath dstPath : string)
  : Prog (error * Client) :=
  if negb (IsConnected c) then Ret (errorf "not connected", c)
  else
    let srcFullPath := resolvePath c srcPath in
    let dstFullPath := resolvePath c dstPath in
    conn <- conn_of c;;
    r <- call (ftp_Retr conn srcFullPath);;
    match r with
    | Fail err =>
        Ret (wrapf ("failed to retrieve source file " +:+ srcFullPath) err, c)
    | Ok resp =>
        let dstDir := GoFilepath.Dir dstFullPath in
        _ <- (if negb (String.eqb dstDir ".") && negb (String.eqb dstDir "/")
              then call (ftp_MakeDir conn dstDir) else Ret None);;
        e <- call (ftp_Stor conn dstFullPath resp);;
        _ <- call (File_Close resp);;
        match e with
        | Some err =>
            Ret (wrapf ("failed to store destination file " +:+ dstFullPath) err, c)
        | None => Ret (None, c)
        end
    end.

Definition GetProtocol : string := "ftp".

Definition GetConfig (c : Client) : Config := config c.

Definition adapter : Adapter :=
  {| State := Client;
     a_Connect := Connect;
     a_Disconnect := Disconnect;
     a_IsConnected := fun c => Ret (IsConnected c);
     a_TestConnection := TestConnection;
     a_ReadFile := ReadFile;
     a_WriteFile := WriteFile;
     a_GetFileInfo := GetFileInfo;
     a_FileExists := FileExists;
     a_DeleteFile := DeleteFile;
     a_CopyFile := CopyFile;
     a_ListDirectory := ListDirectory;
     a_CreateDirectory := CreateDirectory;
     a_DeleteDirectory := DeleteDirectory;
     a_GetProtocol := GetProtocol |}.

End FTP.

(** ** Package [smb] *)

Module SMB.

Record Config : Type := mkConfig {
  CHost : string;
  CPort : Z;
  Share : string;
  Username : string;
  Password : string;
  Domain : string
}.

(** [conn], [session] and [share] are nil ([None]) until [Connect]. *)
Record Client : Type := mkClient {
  conn : option Handle;
  session : option Handle;
  share : option Handle;
  config : Config
}.

Definition NewSMBClient (cfg : Config) : Client :=
  {| conn := None; session := None; share := None; config := cfg |}.

Definition Connect (ctx : Context) (c : Client) : Prog (error * Client) :=
  let addr := FTP.JoinHostPort (CHost (config c))
                (GoStrconv.Itoa (CPort (config c))) in
  r <- call (net_Dial "tcp" addr);;
  match r with
  | Fail err => Ret (wrapf "failed to connect to SMB server" err, c)
  | Ok cn =>
      r2 <- call (smb2_Dial cn (Username (config c)) (Password (config c))
                    (Domain (config c)));;
      match r2 with
      | Fail err =>
          _ <- call (Conn_Close cn);;
          Ret (wrapf "failed to create SMB session" err, c)
      | Ok sess =>
          r3 <- call (Session_Mount sess (Share (config c)));;
          match r3 with
          | Fail err =>
              _ <- call (Session_Logoff sess);;
              _ <- call (Conn_Close cn);;
              Ret (wrapf "failed to mount SMB share" err, c)
          | Ok sh =>
              Ret (None, {| conn := Some cn; session := Some sess;
                            share := Some sh; config := config c |})
          end
      end
  end.

(** [fmt.Errorf("... %v", errs)] prints a slice of errors as their texts
    between brackets, separated by spaces. *)
Fixpoint joinErrors (errs : list error_value) : string :=
  match errs with
  | [] => ""
  | [e] => Error e
  | e :: rest => Error e +:+ " " +:+ joinErrors rest
  end.

Definition Disconnect (ctx : Context) (c : Client) : Prog (error * Client) :=
  errs1 <- match share c with
           | Some sh =>
               e <- call (Share_Umount sh);;
               Ret (match e with
                    | Some err =>
                        [Errorf ("failed to unmount share: " +:+ Error err)
                           (Some err)]
                    | None => []
                    end)
           | None => Ret []
           end;;
  errs2 <- match session c with
           | Some sess =>
               e <- call (Session_Logoff sess);;
               Ret (match e with
                    | Some err =>
                        errs1 ++ [Errorf ("failed to logoff session: "
                                          +:+ Error err) (Some err)]
                    | None => errs1
                    end)
           | None => Ret errs1
           end;;
  errs3 <- match conn c with
           | Some cn =>
               e <- call (Conn_Close cn);;
               Ret (match e with
                    | Some err =>
                        errs2 ++ [Errorf ("failed to close connection: "
                                          +:+ Error err) (Some err)]
                    | None => errs2
                    end)
           | None => Ret errs2
           end;;
  let c' := {| conn := None; session := None; share := None;
               config := config c |} in
  match errs3 with
  | [] => Ret (None, c')
  | _ => Ret (errorf ("errors closing SMB client: [" +:+ joinErrors errs3 +:+ "]"),
              c')
  end.

Definition IsConnected (c : Client) : bool :=
  match share c, session c, conn c with
  | Some _, Some _, Some _ => true
  | _, _, _ => false
  end.

(** The receiver of a call on [c.share]; a nil pointer panics. *)
Definition share_of (c : Client) : Prog Handle :=
  match share c with
  | Some sh => Ret sh
  | None => Panic "invalid memory address or nil pointer dereference"
  end.

Definition TestConnection (ctx : Context) (c : Client) : Prog (error * Client) :=
  if negb (IsConnected c) then Ret (errorf "not connected", c)
  else
    sh <- share_of c;;
    r <- call (Share_ReadDir sh ".");;
    Ret (res_error r, c).

Definition ReadFile (ctx : Context) (c : Client) (path : string)
  : Prog (option Handle * error * Client) :=
  if negb (IsConnected c) then Ret (None, errorf "not connected", c)
  else
    sh <- share_of c;;
    r <- call (Share_Open sh path);;
    match r with
    | Fail err => Ret (None, wrapf ("failed to open SMB file " +:+ path) err, c)
    | Ok file => Ret (Some file, None, c)
    end.

Definition WriteFile (ctx : Context) (c : Client) (path : string) (data : Handle)
  : Prog (error * Client) :=
  if negb (IsConnected c) then Ret (errorf "not connected", c)
  else
    sh <- share_of c;;
    r <- call (Share_Create sh path);;
    match r with
    | Fail err => Ret (wrapf ("failed to create SMB file " +:+ path) err, c)
    | Ok file =>
        cp <- call (io_Copy file data);;
        _ <- call (File_Close file);;
        match snd cp with
        | Some err => Ret (wrapf ("failed to write SMB file " +:+ path) err, c)
        | None => Ret (None, c)
        end
    end.

Definition GetFileInfo (ctx : Context) (c : Client) (path : string)
  : Prog (option FileInfo * error * Client) :=
  if negb (IsConnected c) then Ret (None, errorf "not connected", c)
  else
    sh <- share_of c;;
    r <- call (Share_Stat sh path);;
    match r with
    | Fail err => Ret (None, wrapf ("failed to stat SMB file " +:+ path) err, c)
    | Ok stat =>
        Ret (Some {| Name := fi_Name stat; Size := fi_Size stat;
                     ModTime := fi_ModTime stat; IsDir := fi_IsDir stat;
                     Mode := fi_Mode stat; Path := path |}, None, c)
    end.

Definition entryInfo (path : string) (entry : OsFileInfo) : FileInfo :=
  {| Name := fi_Name entry; Size := fi_Size entry; ModTime := fi_ModTime entry;
     IsDir := fi_IsDir entry; Mode := fi_Mode entry;
     Path := path +:+ "/" +:+ fi_Name entry |}.

Definition ListDirectory (ctx : Context) (c : Client) (path : string)
  : Prog (list FileInfo * error * Client) :=
  if negb (IsConnected c) then Ret ([], errorf "not connected", c)
  else
    sh <- share_of c;;
    r <- call (Share_ReadDir sh path);;
    match r with
    | Fail err => Ret ([], wrapf ("failed to list SMB directory " +:+ path) err, c)
    | Ok entries => Ret (map (entryInfo path) entries, None, c)
    end.

(** [isNotExistError] compares the error's text with two fixed texts. *)
Definition isNotExistError (err : error) : bool :=
  match err with
  | None => false
  | Some e => String.eqb (Error e) "file does not exist"
              || String.eqb (Error e) "no such file or directory"
  end.

Definition FileExists (ctx : Context) (c : Client) (path : string)
  : Prog (bool * error * Client) :=
  if negb (IsConnected c) then Ret (false, errorf "not connected", c)
  else
    sh <- share_of c;;
    r <- call (Share_Stat sh path);;
    match r with
    | Fail err =>
        if isNotExistError (Some err) then Ret (false, None, c)
        else Ret (false,
                  wrapf ("failed to check SMB file existence " +:+ path) err, c)
    | Ok _ => Ret (true, None, c)
    end.

Definition CreateDirectory (ctx : Context) (c : Client) (path : string)
  : Prog (error * Client) :=
  if negb (IsConnected c) then Ret (errorf "not connected", c)
  else
    sh <- share_of c;;
    e <- call (Share_Mkdir sh path perm_0755);;
    match e with
    | Some err => Ret (wrapf ("failed to create SMB directory " +:+ path) err, c)
    | None => Ret (None, c)
    end.

Definition DeleteDirectory (ctx : Context) (c : Client) (path : string)
  : Prog (error * Client) :=
  if negb (IsConnected c) then Ret (errorf "not connected", c)
  else
    sh <- share_of c;;
    e <- call (Share_Remove sh path);;
    match e with
    | Some err => Ret (wrapf ("failed to delete SMB directory " +:+ path) err, c)
    | None => Ret (None, c)
    end.

Definition DeleteFile (ctx : Context) (c : Client) (path : string)
  : Prog (error * Client) :=
  if negb (IsConnected c) then Ret (errorf "not connected", c)
  else
    sh <- share_of c;;
    e <- call (Share_Remove sh path);;
    match e with
    | Some err => Ret (wrapf ("failed to delete SMB file " +:+ path) err, c)
    | None => Ret (None, c)
    end.

Definition CopyFile (ctx : Context) (c : Client) (srcPath dstPath : string)
  : Prog (error * Client) :=
  if negb (IsConnected c) then Ret (errorf "not connected", c)
  else
    sh <- share_of c;;
    r <- call (Share_Open sh srcPath);;
    match r with
    | Fail err => Ret (wrapf ("failed to open source file " +:+ srcPath) err, c)
    | Ok srcFile =>
        r2 <- call (Share_Create sh dstPath);;
        match r2 with
        | Fail err =>
            _ <- call (File_Close srcFile);;
            Ret (wrapf ("failed to create destination file " +:+ dstPath) err, c)
        | Ok dstFile =>
            cp <- call (io_Copy dstFile srcFile);;
            _ <- call (File_Close dstFile);;
            _ <- call (File_Close srcFile);;
            match snd cp with
            | Some err =>
                Ret (wrapf ("failed to copy file from " +:+ srcPath +:+ " to "
                            +:+ dstPath) err, c)
            | None => Ret (None, c)
            end
        end
    end.

Definition GetProtocol : string := "smb".

Definition GetConfig (c : Client) : Config := config c.

Definition adapter : Adapter :=
  {| State := Client;
     a_Connect := Connect;
     a_Disconnect := Disconnect;
     a_IsConnected := fun c => Ret (IsConnected c);
     a_TestConnection := TestConnection;
     a_ReadFile := ReadFile;
     a_WriteFile := WriteFile;
     a_GetFileInfo := GetFileInfo;
     a_FileExists := FileExists;
     a_DeleteFile := DeleteFile;
     a_CopyFile := CopyFile;
     a_ListDirectory := ListDirectory;
     a_CreateDirectory := CreateDirectory;
     a_DeleteDirectory := DeleteDirectory;
     a_GetProtocol := GetProtocol |}.

End SMB.

(** ** [net/url]: how a URL is written *)

Module GoURL.

Definition byte_in (lo hi : string) (c : ascii) : bool :=
  match lo, hi with
  | String l _, String h _ =>
      (nat_of_ascii l <=? nat_of_ascii c)%nat
      && (nat_of_ascii c <=? nat_of_ascii h)%nat
  | _, _ => false
  end.

(** The part of a URL that is being escaped. *)
Inductive encoding : Type :=
| encodePath
| encodePathSegment
| encodeHost
| encodeZone
| encodeUserPassword
| encodeQueryComponent
| encodeFragment.

Definition isHostMode (mode : encoding) : bool :=
  match mode with
  | encodeHost | encodeZone => true
  | _ => false
  end.

(** The byte of a double quote. *)
Definition quote : ascii := ascii_of_nat 34.

(** [shouldEscape(c, mode)]: letters and digits never; in a host the
    sub-delimiters, [:], the brackets and the quote stay; the marks
    [-_.~] always stay; of the reserved bytes each part keeps its own
    set; a fragment keeps [!()*] as well; every other byte is escaped. *)
Definition shouldEscape (c : ascii) (mode : encoding) : bool :=
  if byte_in "a" "z" c || byte_in "A" "Z" c || byte_in "0" "9" c then false
  else if isHostMode mode
          && (GoStrings.ContainsByte "!$&'()*+,;=:[]<>" c || Ascii.eqb c quote)
  then false
  else if GoStrings.ContainsByte "-_.~" c then false
  else
    let reserved := GoStrings.ContainsByte "$&+,/:;=?@" c in
    match mode with
    | encodePath =>
        if reserved then Ascii.eqb c "?" else true
    | encodePathSegment =>
        if reserved then GoStrings.ContainsByte "/;,?" c else true
    | encodeUserPassword =>
        if reserved then GoStrings.ContainsByte "@/?:" c else true
    | encodeQueryComponent => true
    | encodeFragment =>
        if reserved then false
        else if GoStrings.ContainsByte "!()*" c then false else true
    | encodeHost | encodeZone => true
    end.

Definition upperhex (n : nat) : ascii :=
  match String.get n "0123456789ABCDEF" with
  | Some h => h
  | None => "0"%char
  end.

(** [escape(s, mode)]: a byte that [shouldEscape] names becomes [%XX]
    (a space becomes [+] in a query component), every other byte is
    copied; a string with nothing to escape comes back as it is. *)
Fixpoint escape (s : string) (mode : encoding) : string :=
  match s with
  | EmptyString => EmptyString
  | String c r =>
      if shouldEscape c mode
      then match mode with
           | encodeQueryComponent =>
               if Ascii.eqb c " "
               then String "+" (escape r mode)
               else String "%" (String (upperhex (nat_of_ascii c / 16))
                      (String (upperhex (nat_of_ascii c mod 16)) (escape r mode)))
           | _ =>
               String "%" (String (upperhex (nat_of_ascii c / 16))
                 (String (upperhex (nat_of_ascii c mod 16)) (escape r mode)))
           end
      else String c (escape r mode)
  end.

Definition ishex (c : ascii) : bool :=
  byte_in "0" "9" c || byte_in "a" "f" c || byte_in "A" "F" c.

(** [unhex(c)] for a byte that [ishex] accepts. *)
Definition unhex (c : ascii) : nat :=
  if byte_in "0" "9" c then nat_of_ascii c - nat_of_ascii "0"
  else if byte_in "a" "f" c then nat_of_ascii c - nat_of_ascii "a" + 10
  else if byte_in "A" "F" c then nat_of_ascii c - nat_of_ascii "A" + 10
  else 0.

(** [unescape(s, mode)] for [encodePath] and [encodeFragment], the two
    modes [String()] decodes with: a [%] must be followed by two hex
    digits and stands for that byte, every other byte (a [+] too) is
    copied; [None] is the [EscapeError]. *)
Fixpoint unescape (s : string) : option string :=
  match s with
  | EmptyString => Some EmptyString
  | String c r =>
      if Ascii.eqb c "%"
      then match r with
           | String h1 (String h2 r2) =>
               if ishex h1 && ishex h2
               then match unescape r2 with
                    | Some t =>
                        Some (String (ascii_of_nat (unhex h1 * 16 + unhex h2)) t)
                    | None => None
                    end
               else None
           | _ => None
           end
      else match unescape r with
           | Some t => Some (String c t)
           | None => None
           end
  end.

(** [validEncoded(s, mode)]. *)
Fixpoint validEncoded (s : string) (mode : encoding) : bool :=
  match s with
  | EmptyString => true
  | String c r =>
      (if GoStrings.ContainsByte "!$&'()*+,;=:@[]%" c then true
       else negb (shouldEscape c mode))
      && validEncoded r mode
  end.

(** [EscapedPath]: [RawPath] when it is a valid encoding of [Path],
    and the default encoding of [Path] otherwise. *)
Definition EscapedPath (u : URL) : string :=
  if negb (String.eqb (RawPath u) "") && validEncoded (RawPath u) encodePath
     && match unescape (RawPath u) with
        | Some p => String.eqb p (UPath u)
        | None => false
        end
  then RawPath u
  else if String.eqb (UPath u) "*" then "*" else escape (UPath u) encodePath.

(** [EscapedFragment], in the same way. *)
Definition EscapedFragment (u : URL) : string :=
  if negb (String.eqb (RawFragment u) "")
     && validEncoded (RawFragment u) encodeFragment
     && match unescape (RawFragment u) with
        | Some f => String.eqb f (Fragment u)
        | None => false
        end
  then RawFragment u
  else escape (Fragment u) encodeFragment.

(** The method [String] of a [*Userinfo] that is not nil. *)
Definition UserinfoString (ui : Userinfo) : string :=
  let s := escape (username ui) encodeUserPassword in
  if passwordSet ui then s +:+ ":" +:+ escape (password ui) encodeUserPassword
  else s.

Definition isNil {A : Type} (o : option A) : bool :=
  match o with
  | None => true
  | Some _ => false
  end.

(** The part of [path] before its first slash: [strings.Cut(path, "/")]. *)
Fixpoint firstSegment (path : string) : string :=
  match path with
  | EmptyString => EmptyString
  | String c r => if Ascii.eqb c "/" then EmptyString
                  else String c (firstSegment r)
  end.

(** What [String()] writes between the scheme and the path: the
    authority [//userinfo@host]. *)
Definition authority (u : URL) : string :=
  if negb (String.eqb (Scheme u) "") || negb (String.eqb (Host u) "")
     || negb (isNil (User u))
  then
    if OmitHost u && String.eqb (Host u) "" && isNil (User u) then ""
    else
      (if negb (String.eqb (Host u) "") || negb (String.eqb (UPath u) "")
          || negb (isNil (User u))
       then "//" else "")
      +:+ match User u with
          | Some ui => UserinfoString ui +:+ "@"
          | None => ""
          end
      +:+ (if negb (String.eqb (Host u) "") then escape (Host u) encodeHost
           else "")
  else "".

(** The method [String] of a [url.URL]:
    [scheme:opaque?query#fragment] or
    [scheme://userinfo@host/path?query#fragment]. *)
Definition String (u : URL) : string :=
  let buf := if negb (String.eqb (Scheme u) "") then Scheme u +:+ ":" else "" in
  let buf :=
    if negb (String.eqb (Opaque u) "") then buf +:+ Opaque u
    else
      let buf := buf +:+ authority u in
      let path := EscapedPath u in
      let buf :=
        if negb (String.eqb path "") && negb (GoStrings.HasPrefix path "/")
           && negb (String.eqb (Host u) "")
        then buf +:+ "/" else buf in
      let buf :=
        if String.eqb buf "" && GoStrings.ContainsByte (firstSegment path) ":"
        then buf +:+ "./" else buf in
      buf +:+ path in
  let buf :=
    if ForceQuery u || negb (String.eqb (RawQuery u) "")
    then buf +:+ "?" +:+ RawQuery u else buf in
  if negb (String.eqb (Fragment u) "")
  then buf +:+ "#" +:+ EscapedFragment u else buf.

End GoURL.

(** ** Package [webdav] *)

Module WebDAV.

Record Config : Type := mkConfig {
  CURL : string;
  Username : string;
  Password : string;
  CPath : string
}.

(** [timeoutSeconds] is the [Timeout] of the [http.Client]; [baseURL]
    is a [*url.URL], [None] the nil pointer. *)
Record Client : Type := mkClient {
  config : Config;
  timeoutSeconds : Z;
  baseURL : option URL;
  connected : bool
}.

Definition set_connected (b : bool) (c : Client) : Client :=
  {| config := config c; timeoutSeconds := timeoutSeconds c;
     baseURL := baseURL c; connected := b |}.

Definition nilDeref : string :=
  "invalid memory address or nil pointer dereference".

(** [url.Parse] returns a nil URL with its error, and the error is
    dropped: assigning to [baseURL.Path] then panics on the nil pointer. *)
Definition NewWebDAVClient (cfg : Config) : Prog Client :=
  r <- call (url_Parse (CURL cfg));;
  let parsed := match r with Ok u => Some u | Fail _ => None end in
  if negb (String.eqb (CPath cfg) "") && negb (String.eqb (CPath cfg) "/") then
    match parsed with
    | Some u =>
        Ret {| config := cfg; timeoutSeconds := 30;
               baseURL := Some (set_UPath u (CPath cfg)); connected := false |}
    | None => Panic nilDeref
    end
  else
    Ret {| config := cfg; timeoutSeconds := 30; baseURL := parsed;
           connected := false |}.

(** [*c.baseURL]. *)
Definition base_of (c : Client) : Prog URL :=
  match baseURL c with
  | Some u => Ret u
  | None => Panic nilDeref
  end.

(** The request [http.NewRequestWithContext] returns when it accepts its
    arguments: it carries them, with no header and no credentials. *)
Definition acceptedRequest (ctx : Context) (method url : string) (body : ReqBody)
  : Request :=
  {| rq_ctx := ctx; rq_Method := method; rq_URL := url; rq_BasicAuth := None;
     rq_Header := []; rq_Body := body; rq_ContentLength := 0 |}.

(** [http.NewRequestWithContext(ctx, method, url, body)]: the call
    accepts or refuses its arguments. *)
Definition newRequest (ctx : Context) (method url : string) (body : ReqBody)
  : Prog (res Request) :=
  e <- call (http_NewRequestWithContext ctx method url);;
  match e with
  | Some err => Ret (Fail err)
  | None =>
      Ret (Ok (acceptedRequest ctx method url body))
  end.

(** [if c.config.Username != "" { req.SetBasicAuth(...) }]. *)
Definition withAuth (c : Client) (req : Request) : Request :=
  if negb (String.eqb (Username (config c)) "")
  then {| rq_ctx := rq_ctx req; rq_Method := rq_Method req; rq_URL := rq_URL req;
          rq_BasicAuth := Some (Username (config c), Password (config c));
          rq_Header := rq_Header req; rq_Body := rq_Body req;
          rq_ContentLength := rq_ContentLength req |}
  else req.

(** [req.Header.Set(key, value)] for a key not set before. *)
Definition setHeader (req : Request) (key value : string) : Request :=
  {| rq_ctx := rq_ctx req; rq_Method := rq_Method req; rq_URL := rq_URL req;
     rq_BasicAuth := rq_BasicAuth req;
     rq_Header := rq_Header req ++ [(key, value)]; rq_Body := rq_Body req;
     rq_ContentLength := rq_ContentLength req |}.

Definition setBody (req : Request) (body : string) : Request :=
  {| rq_ctx := rq_ctx req; rq_Method := rq_Method req; rq_URL := rq_URL req;
     rq_BasicAuth := rq_BasicAuth req; rq_Header := rq_Header req;
     rq_Body := BodyString body; rq_ContentLength := GoStrings.len body |}.

Definition statusError (code : Z) (what : string) : error :=
  errorf ("WebDAV server returned status " +:+ GoStrconv.Itoa code +:+ what).

Definition Connect (ctx : Context) (c : Client) : Prog (error * Client) :=
  u <- base_of c;;
  rq <- newRequest ctx "PROPFIND" (GoURL.String u) NoBody;;
  match rq with
  | Fail err => Ret (wrapf "failed to create PROPFIND request" err, c)
  | Ok req =>
      let req := setHeader (withAuth c req) "Depth" "0" in
      r <- call (http_Do req);;
      match r with
      | Fail err => Ret (wrapf "failed to connect to WebDAV server" err, c)
      | Ok resp =>
          _ <- call (File_Close (rs_Body resp));;
          if negb (StatusCode resp =? StatusMultiStatus)
             && negb (StatusCode resp =? StatusOK)
          then Ret (statusError (StatusCode resp) "", c)
          else Ret (None, set_connected true c)
      end
  end.

Definition Disconnect (ctx : Context) (c : Client) : Prog (error * Client) :=
  Ret (None, set_connected false c).

Definition IsConnected (c : Client) : bool := connected c.

Definition TestConnection (ctx : Context) (c : Client) : Prog (error * Client) :=
  if negb (IsConnected c) then Ret (errorf "not connected", c)
  else Connect ctx c.

(** [resolveURL] on the URL [*c.baseURL] points to. *)
Definition resolveURLFrom (base : URL) (path : string) : string :=
  let cleanPath := GoFilepath.Clean path in
  let cleanPath := if GoStrings.Contains cleanPath ".."
                   then GoStrings.ReplaceAll cleanPath ".." ""
                   else cleanPath in
  GoURL.String (set_UPath base (GoFilepath.Join (UPath base) cleanPath)).

Definition resolveURL (c : Client) (path : string) : Prog string :=
  u <- base_of c;;
  Ret (resolveURLFrom u path).

Definition within2xx (code : Z) : bool := (200 <=? code) && (code <? 300).

Definition ReadFile (ctx : Context) (c : Client) (path : string)
  : Prog (option Handle * error * Client) :=
  if negb (IsConnected c) then Ret (None, errorf "not connected", c)
  else
    fullURL <- resolveURL c path;;
    rq <- newRequest ctx "GET" fullURL NoBody;;
    match rq with
    | Fail err => Ret (None, wrapf "failed to create GET request" err, c)
    | Ok req =>
        r <- call (http_Do (withAuth c req));;
        match r with
        | Fail err =>
            Ret (None, wrapf ("failed to retrieve WebDAV file " +:+ fullURL) err, c)
        | Ok resp =>
            if negb (StatusCode resp =? StatusOK) then
              _ <- call (File_Close (rs_Body resp));;
              Ret (None, statusError (StatusCode resp) (" for file " +:+ fullURL), c)
            else Ret (Some (rs_Body resp), None, c)
        end
    end.

Definition WriteFile (ctx : Context) (c : Client) (path : string) (data : Handle)
  : Prog (error * Client) :=
  if negb (IsConnected c) then Ret (errorf "not connected", c)
  else
    fullURL <- resolveURL c path;;
    rq <- newRequest ctx "PUT" fullURL (BodyReader data);;
    match rq with
    | Fail err => Ret (wrapf "failed to create PUT request" err, c)
    | Ok req =>
        r <- call (http_Do (withAuth c req));;
        match r with
        | Fail err =>
            Ret (wrapf ("failed to upload WebDAV file " +:+ fullURL) err, c)
        | Ok resp =>
            _ <- call (File_Close (rs_Body resp));;
            if negb (within2xx (StatusCode resp))
            then Ret (statusError (StatusCode resp) (" for file " +:+ fullURL), c)
            else Ret (None, c)
        end
    end.

Definition RFC1123 : string := "Mon, 02 Jan 2006 15:04:05 MST".

Definition GetFileInfo (ctx : Context) (c : Client) (path : string)
  : Prog (option FileInfo * error * Client) :=
  if negb (IsConnected c) then Ret (None, errorf "not connected", c)
  else
    fullURL <- resolveURL c path;;
    rq <- newRequest ctx "HEAD" fullURL NoBody;;
    match rq with
    | Fail err => Ret (None, wrapf "failed to create HEAD request" err, c)
    | Ok req =>
        r <- call (http_Do (withAuth c req));;
        match r with
        | Fail err =>
            Ret (None, wrapf ("failed to get WebDAV file info " +:+ fullURL) err, c)
        | Ok resp =>
            if negb (StatusCode resp =? StatusOK) then
              _ <- call (File_Close (rs_Body resp));;
              Ret (None, statusError (StatusCode resp) (" for file " +:+ fullURL), c)
            else
              let cl := Header_Get resp "Content-Length" in
              let size := if negb (String.eqb cl "")
                          then match GoStrconv.ParseInt cl with
                               | Some s => s
                               | None => 0
                               end
                          else 0 in
              now <- call time_Now;;
              let lm := Header_Get resp "Last-Modified" in
              modTime <- (if negb (String.eqb lm "") then
                            t <- call (time_Parse RFC1123 lm);;
                            Ret (match t with Ok t' => t' | Fail _ => now end)
                          else Ret now);;
              let isDir := GoStrings.HasSuffix path "/"
                           || String.eqb (Header_Get resp "Content-Type")
                                "httpd/unix-directory" in
              _ <- call (File_Close (rs_Body resp));;
              Ret (Some {| Name := GoFilepath.Base path; Size := size;
                           ModTime := modTime; IsDir := isDir;
                           Mode := perm_0644; Path := path |}, None, c)
        end
    end.

(** A slice expression inside a method: out of range is a panic. *)
Definition sliceOrPanic (s : string) (lo hi : Z) : Prog string :=
  match GoStrings.slice s lo hi with
  | Some t => Ret t
  | None => Panic "slice bounds out of range"
  end.

(** The body of the PROPFIND request of [ListDirectory]. *)
Definition dq : string := String (ascii_of_nat 34) EmptyString.
Definition nl : string := String (ascii_of_nat 10) EmptyString.
Definition tab : string := String (ascii_of_nat 9) EmptyString.

Definition propfindBody : string :=
  "<?xml version=" +:+ dq +:+ "1.0" +:+ dq +:+ " encoding=" +:+ dq +:+ "utf-8"
  +:+ dq +:+ " ?>" +:+ nl
  +:+ "<D:propfind xmlns:D=" +:+ dq +:+ "DAV:" +:+ dq +:+ ">" +:+ nl
  +:+ tab +:+ "<D:prop>" +:+ nl
  +:+ tab +:+ tab +:+ "<D:displayname/>" +:+ nl
  +:+ tab +:+ tab +:+ "<D:getcontentlength/>" +:+ nl
  +:+ tab +:+ tab +:+ "<D:getlastmodified/>" +:+ nl
  +:+ tab +:+ tab +:+ "<D:resourcetype/>" +:+ nl
  +:+ tab +:+ "</D:prop>" +:+ nl
  +:+ "</D:propfind>".

(** One turn of the loop over [responses[1:]]: [None] is [continue]. *)
Definition parseResponse (fullURL response : string) : Prog (option FileInfo) :=
  let endIndex := GoStrings.Index response "</D:response>" in
  if endIndex =? -1 then Ret None
  else
    response <- sliceOrPanic response 0 endIndex;;
    let hrefStart := GoStrings.Index response "<D:href>" in
    let hrefEnd := GoStrings.Index response "</D:href>" in
    if (hrefStart =? -1) || (hrefEnd =? -1) then Ret None
    else
      href <- sliceOrPanic response (hrefStart + 8) hrefEnd;;
      if String.eqb href fullURL
         || String.eqb href (GoStrings.TrimSuffix fullURL "/")
      then Ret None
      else
        let nameStart := GoStrings.Index response "<D:displayname>" in
        let nameEnd := GoStrings.Index response "</D:displayname>" in
        displayName <- (if negb (nameStart =? -1) && negb (nameEnd =? -1)
                        then sliceOrPanic response (nameStart + 16) nameEnd
                        else Ret (GoFilepath.Base href));;
        let sizeStart := GoStrings.Index response "<D:getcontentlength>" in
        let sizeEnd := GoStrings.Index response "</D:getcontentlength>" in
        size <- (if negb (sizeStart =? -1) && negb (sizeEnd =? -1)
                 then
                   sizeStr <- sliceOrPanic response (sizeStart + 20) sizeEnd;;
                   Ret (match GoStrconv.ParseInt sizeStr with
                        | Some s => s
                        | None => 0
                        end)
                 else Ret 0);;
        now <- call time_Now;;
        let modStart := GoStrings.Index response "<D:getlastmodified>" in
        let modEnd := GoStrings.Index response "</D:getlastmodified>" in
        modTime <- (if negb (modStart =? -1) && negb (modEnd =? -1)
                    then
                      modStr <- sliceOrPanic response (modStart + 20) modEnd;;
                      t <- call (time_Parse RFC1123 modStr);;
                      match t with
                      | Ok t' => Ret t'
                      | Fail _ =>
                          t2 <- call (time_Parse "Mon, 2 Jan 2006 15:04:05 MST"
                                        modStr);;
                          Ret (match t2 with Ok t' => t' | Fail _ => now end)
                      end
                    else Ret now);;
        let isDir :=
          GoStrings.Contains response
            "<D:resourcetype><D:collection/></D:resourcetype>"
          || GoStrings.Contains response
               "<D:resourcetype><D:directory/></D:resourcetype>" in
        let relPath := GoStrings.TrimPrefix href fullURL in
        let relPath := if String.eqb relPath "" then displayName
                       else GoStrings.TrimPrefix relPath "/" in
        Ret (Some {| Name := displayName; Size := size; ModTime := modTime;
                     IsDir := isDir; Mode := perm_0644; Path := relPath |}).

(** [for i := 1; i < len(responses); i++]. *)
Fixpoint parseResponses (fullURL : string) (responses : list string)
  (files : list FileInfo) : Prog (list FileInfo) :=
  match responses with
  | [] => Ret files
  | response :: rest =>
      f <- parseResponse fullURL response;;
      match f with
      | None => parseResponses fullURL rest files
      | Some info => parseResponses fullURL rest (files ++ [info])
      end
  end.

(** The parser of a multistatus body: split at the record start marker,
    drop the text before the first marker, parse the rest. *)
Definition parseMultistatus (fullURL responseStr : string) : Prog (list FileInfo) :=
  parseResponses fullURL (tl (GoStrings.Split responseStr "<D:response>")) [].

Definition ListDirectory (ctx : Context) (c : Client) (path : string)
  : Prog (list FileInfo * error * Client) :=
  if negb (IsConnected c) then Ret ([], errorf "not connected", c)
  else
    fullURL <- resolveURL c path;;
    rq <- newRequest ctx "PROPFIND" fullURL NoBody;;
    match rq with
    | Fail err => Ret ([], wrapf "failed to create PROPFIND request" err, c)
    | Ok req =>
        let req := setHeader (setHeader (withAuth c req) "Depth" "1")
                     "Content-Type" "application/xml" in
        let req := setBody req propfindBody in
        r <- call (http_Do req);;
        match r with
        | Fail err =>
            Ret ([], wrapf ("failed to list WebDAV directory " +:+ fullURL) err, c)
        | Ok resp =>
            if negb (StatusCode resp =? StatusMultiStatus) then
              _ <- call (File_Close (rs_Body resp));;
              Ret ([], statusError (StatusCode resp)
                         (" for directory " +:+ fullURL), c)
            else
              b <- call (io_ReadAll (rs_Body resp));;
              match b with
              | Fail err =>
                  _ <- call (File_Close (rs_Body resp));;
                  Ret ([], wrapf "failed to read WebDAV response" err, c)
              | Ok bodyBytes =>
                  files <- parseMultistatus fullURL bodyBytes;;
                  _ <- call (File_Close (rs_Body resp));;
                  Ret (files, None, c)
              end
        end
    end.

Definition FileExists (ctx : Context) (c : Client) (path : string)
  : Prog (bool * error * Client) :=
  if negb (IsConnected c) then Ret (false, errorf "not connected", c)
  else
    fullURL <- resolveURL c path;;
    rq <- newRequest ctx "HEAD" fullURL NoBody;;
    match rq with
    | Fail err => Ret (false, wrapf "failed to create HEAD request" err, c)
    | Ok req =>
        r <- call (http_Do (withAuth c req));;
        match r with
        | Fail err =>
            Ret (false,
                 wrapf ("failed to check WebDAV file existence " +:+ fullURL) err,
                 c)
        | Ok resp =>
            _ <- call (File_Close (rs_Body resp));;
            Ret (StatusCode resp =? StatusOK, None, c)
        end
    end.

Definition CreateDirectory (ctx : Context) (c : Client) (path : string)
  : Prog (error * Client) :=
  if negb (IsConnected c) then Ret (errorf "not connected", c)
  else
    fullURL <- resolveURL c path;;
    rq <- newRequest ctx "MKCOL" fullURL NoBody;;
    match rq with
    | Fail err => Ret (wrapf "failed to create MKCOL request" err, c)
    | Ok req =>
        r <- call (http_Do (withAuth c req));;
        match r with
        | Fail err => Ret (wrapf ("failed to create WebDAV directory " +:+ fullURL) err, c)
        | Ok resp =>
            _ <- call (File_Close (rs_Body resp));;
            if negb (within2xx (StatusCode resp))
            then Ret (statusError (StatusCode resp) (" for directory " +:+ fullURL), c)
            else Ret (None, c)
        end
    end.

Definition DeleteDirectory (ctx : Context) (c : Client) (path : string)
  : Prog (error * Client) :=
  if negb (IsConnected c) then Ret (errorf "not connected", c)
  else
    fullURL <- resolveURL c path;;
    rq <- newRequest ctx "DELETE" fullURL NoBody;;
    match rq with
    | Fail err => Ret (wrapf "failed to create DELETE request" err, c)
    | Ok req =>
        r <- call (http_Do (withAuth c req));;
        match r with
        | Fail err => Ret (wrapf ("failed to delete WebDAV directory " +:+ fullURL) err, c)
        | Ok resp =>
            _ <- call (File_Close (rs_Body resp));;
            if negb (within2xx (StatusCode resp))
            then Ret (statusError (StatusCode resp) (" for directory " +:+ fullURL), c)
            else Ret (None, c)
        end
    end.

Definition DeleteFile (ctx : Context) (c : Client) (path : string)
  : Prog (error * Client) :=
  if negb (IsConnected c) then Ret (errorf "not connected", c)
  else
    fullURL <- resolveURL c path;;
    rq <- newRequest ctx "DELETE" fullURL NoBody;;
    match rq with
    | Fail err => Ret (wrapf "failed to create DELETE request" err, c)
    | Ok req =>
        r <- call (http_Do (withAuth c req));;
        match r with
        | Fail err => Ret (wrapf ("failed to delete WebDAV file " +:+ fullURL) err, c)
        | Ok resp =>
            _ <- call (File_Close (rs_Body resp));;
            if negb (within2xx (StatusCode resp))
            then Ret (statusError (StatusCode resp) (" for file " +:+ fullURL), c)
            else Ret (None, c)
        end
    end.

Definition CopyFile (ctx : Context) (c : Client) (srcPath dstPath : string)
  : Prog (error * Client) :=
  if negb (IsConnected c) then Ret (errorf "not connected", c)
  else
    srcURL <- resolveURL c srcPath;;
    dstURL <- resolveURL c dstPath;;
    rq <- newRequest ctx "COPY" srcURL NoBody;;
    match rq with
    | Fail err => Ret (wrapf "failed to create COPY request" err, c)
    | Ok req =>
        let req := setHeader (withAuth c req) "Destination" dstURL in
        r <- call (http_Do req);;
        match r with
        | Fail err =>
            Ret (wrapf ("failed to copy WebDAV file from " +:+ srcURL +:+ " to "
                        +:+ dstURL) err, c)
        | Ok resp =>
            _ <- call (File_Close (rs_Body resp));;
            if negb (within2xx (StatusCode resp))
            then Ret (statusError (StatusCode resp) " for copy operation", c)
            else Ret (None, c)
        end
    end.

Definition GetProtocol : string := "webdav".

Definition GetConfig (c : Client) : Config := config c.

Definition adapter : Adapter :=
  {| State := Client;
     a_Connect := Connect;
     a_Disconnect := Disconnect;
     a_IsConnected := fun c => Ret (IsConnected c);
     a_TestConnection := TestConnection;
     a_ReadFile := ReadFile;
     a_WriteFile := WriteFile;
     a_GetFileInfo := GetFileInfo;
     a_FileExists := FileExists;
     a_DeleteFile := DeleteFile;
     a_CopyFile := CopyFile;
     a_ListDirectory := ListDirectory;
     a_CreateDirectory := CreateDirectory;
     a_DeleteDirectory := DeleteDirectory;
     a_GetProtocol := GetProtocol |}.

End WebDAV.

(** ** Package [factory] *)

Module Factory.

(** A value of the settings bag ([interface{}]).  A [float64] is kept as
    the [int] its conversion [int(f)] yields, the one thing the factory
    does with it. *)
Inductive Value : Type :=
| VString (s : string)
| VInt (n : Z)
| VFloat64 (asInt : Z)
| VBool (b : bool)
| VNil.

(** [client.StorageConfig]. *)
Record StorageConfig : Type := mkStorageConfig {
  ID : string;
  SName : string;
  Protocol : string;
  Enabled : bool;
  MaxDepth : Z;
  Settings : gmap string Value;
  CreatedAt : Time;
  UpdatedAt : Time
}.

(** A non-nil [client.Client]: one of the five adapters. *)
Inductive AnyClient : Type :=
| SMBClient (c : SMB.Client)
| FTPClient (c : FTP.Client)
| NFSClient (c : NFS.Client)
| WebDAVClient (c : WebDAV.Client)
| LocalClient (c : Local.Client).

Definition GetProtocol (c : AnyClient) : string :=
  match c with
  | SMBClient _ => SMB.GetProtocol
  | FTPClient _ => FTP.GetProtocol
  | NFSClient _ => NFS.GetProtocol
  | WebDAVClient _ => WebDAV.GetProtocol
  | LocalClient _ => Local.GetProtocol
  end.

Definition GetStringSetting (settings : gmap string Value)
  (key defaultValue : string) : string :=
  match settings !! key with
  | Some (VString str) => str
  | _ => defaultValue
  end.

Definition GetIntSetting (settings : gmap string Value) (key : string)
  (defaultValue : Z) : Z :=
  match settings !! key with
  | Some (VInt num) => num
  | Some (VFloat64 floatNum) => floatNum
  | _ => defaultValue
  end.

(** [createNFSClient] of nfs_linux.go. *)
Definition createNFSClient_linux (config : StorageConfig)
  : option AnyClient * error :=
  let nfsConfig :=
    {| NFS.CHost := GetStringSetting (Settings config) "host" "";
       NFS.CPath := GetStringSetting (Settings config) "path" "";
       NFS.MountPoint := GetStringSetting (Settings config) "mount_point" "";
       NFS.Options := GetStringSetting (Settings config) "options" "vers=3" |} in
  match NFS.NewNFSClient nfsConfig with
  | (_, Some err) => (None, wrapf "failed to create NFS client" err)
  | (Some c, None) => (Some (NFSClient c), None)
  | (None, None) => (None, None)
  end.

(** [createNFSClient] of nfs_other.go. *)
Definition createNFSClient_other (config : StorageConfig)
  : option AnyClient * error :=
  (None, errorf "NFS protocol is only supported on Linux").

(** [linux] tells which of the two build-tagged files is compiled in. *)
Definition CreateClient (linux : bool) (config : StorageConfig)
  : Prog (option AnyClient * error) :=
  let settings := Settings config in
  if String.eqb (Protocol config) "smb" then
    let smbConfig :=
      {| SMB.CHost := GetStringSetting settings "host" "";
         SMB.CPort := GetIntSetting settings "port" 445;
         SMB.Share := GetStringSetting settings "share" "";
         SMB.Username := GetStringSetting settings "username" "";
         SMB.Password := GetStringSetting settings "password" "";
         SMB.Domain := GetStringSetting settings "domain" "WORKGROUP" |} in
    Ret (Some (SMBClient (SMB.NewSMBClient smbConfig)), None)
  else if String.eqb (Protocol config) "ftp" then
    let ftpConfig :=
      {| FTP.CHost := GetStringSetting settings "host" "";
         FTP.CPort := GetIntSetting settings "port" 21;
         FTP.Username := GetStringSetting settings "username" "";
         FTP.Password := GetStringSetting settings "password" "";
         FTP.CPath := GetStringSetting settings "path" "" |} in
    Ret (Some (FTPClient (FTP.NewFTPClient ftpConfig)), None)
  else if String.eqb (Protocol config) "nfs" then
    Ret (if linux then createNFSClient_linux config
         else createNFSClient_other config)
  else if String.eqb (Protocol config) "webdav" then
    let webdavConfig :=
      {| WebDAV.CURL := GetStringSetting settings "url" "";
         WebDAV.Username := GetStringSetting settings "username" "";
         WebDAV.Password := GetStringSetting settings "password" "";
         WebDAV.CPath := GetStringSetting settings "path" "" |} in
    c <- WebDAV.NewWebDAVClient webdavConfig;;
    Ret (Some (WebDAVClient c), None)
  else if String.eqb (Protocol config) "local" then
    let localConfig :=
      {| Local.BasePath := GetStringSetting settings "base_path" "" |} in
    Ret (Some (LocalClient (Local.NewLocalClient localConfig)), None)
  else
    Ret (None, errorf ("unsupported protocol: " +:+ Protocol config)).

Definition SupportedProtocols : list string :=
  ["smb"; "ftp"; "nfs"; "webdav"; "local"].

End Factory.

(** ** The adapters behind the uniform contract *)

Definition adapters : list Adapter :=
  [Local.adapter; SMB.adapter; FTP.adapter; NFS.adapter; WebDAV.adapter].






(** Does the error's text contain [what]?  ([assert.Contains] of the tests.) *)
Definition errorContains (err : error) (what : string) : bool :=
  match err with
  | Some e => GoStrings.Contains (Error e) what
  | None => false
  end.

(** ** Scripted environments, for running the methods on concrete inputs *)

Definition unavailable : error_value := External "unavailable" false.

(** The answers of a stateless environment to the calls the examples
    exercise; every other call fails with [unavailable] (closing a file
    or a connection succeeds). *)
Record Script : Type := mkScript {
  on_Stat : string -> res OsFileInfo;
  on_Open : string -> res Handle;
  on_Mount : error;
  on_Unmount : error;
  on_ShareStat : string -> res OsFileInfo;
  on_FtpSize : string -> res Z;
  on_FtpList : string -> res (list FtpEntry);
  on_Parse : string -> res URL;
  on_NewRequest : string -> string -> error;
  on_Do : Request -> res Response;
  on_ReadAll : Handle -> res string;
  on_TimeParse : string -> string -> res Time
}.

Definition quiet : Script :=
  {| on_Stat := fun _ => Fail unavailable;
     on_Open := fun _ => Fail unavailable;
     on_Mount := Some unavailable;
     on_Unmount := Some unavailable;
     on_ShareStat := fun _ => Fail unavailable;
     on_FtpSize := fun _ => Fail unavailable;
     on_FtpList := fun _ => Fail unavailable;
     on_Parse := fun _ => Fail unavailable;
     on_NewRequest := fun _ _ => None;
     on_Do := fun _ => Fail unavailable;
     on_ReadAll := fun _ => Fail unavailable;
     on_TimeParse := fun _ _ => Fail unavailable |}.

Definition play (s : Script) : handler unit :=
  fun R e w =>
    match e in Call R return R * unit with
    | os_Stat name => (on_Stat s name, w)
    | os_Open name => (on_Open s name, w)
    | os_Create _ => (Fail unavailable, w)
    | os_MkdirAll _ _ => (None, w)
    | os_ReadDir _ => (Fail unavailable, w)
    | DirEntry_Info _ => (Fail unavailable, w)
    | os_RemoveAll _ => (Some unavailable, w)
    | os_Remove _ => (Some unavailable, w)
    | File_Close _ => (None, w)
    | io_Copy _ _ => ((0, Some unavailable), w)
    | io_ReadAll r => (on_ReadAll s r, w)
    | syscall_Mount _ _ _ _ _ => (on_Mount s, w)
    | syscall_Unmount _ _ => (on_Unmount s, w)
    | time_Now => (0, w)
    | time_Parse layout value => (on_TimeParse s layout value, w)
    | net_Dial _ _ => (Fail unavailable, w)
    | Conn_Close _ => (None, w)
    | smb2_Dial _ _ _ _ => (Fail unavailable, w)
    | Session_Mount _ _ => (Fail unavailable, w)
    | Session_Logoff _ => (None, w)
    | Share_Umount _ => (None, w)
    | Share_Open _ _ => (Fail unavailable, w)
    | Share_Create _ _ => (Fail unavailable, w)
    | Share_Stat _ name => (on_ShareStat s name, w)
    | Share_ReadDir _ _ => (Fail unavailable, w)
    | Share_Remove _ _ => (Some unavailable, w)
    | Share_Mkdir _ _ _ => (Some unavailable, w)
    | ftp_Dial _ _ => (Fail unavailable, w)
    | ftp_Login _ _ _ => (Some unavailable, w)
    | ftp_Quit _ => (None, w)
    | ftp_ChangeDir _ _ => (Some unavailable, w)
    | ftp_CurrentDir _ => (Fail unavailable, w)
    | ftp_Retr _ _ => (Fail unavailable, w)
    | ftp_Stor _ _ _ => (Some unavailable, w)
    | ftp_MakeDir _ _ => (Some unavailable, w)
    | ftp_FileSize _ path => (on_FtpSize s path, w)
    | ftp_List _ path => (on_FtpList s path, w)
    | ftp_RemoveDir _ _ => (Some unavailable, w)
    | ftp_Delete _ _ => (Some unavailable, w)
    | url_Parse rawURL => (on_Parse s rawURL, w)
    | http_NewRequestWithContext _ method url => (on_NewRequest s method url, w)
    | http_Do req => (on_Do s req, w)
    end.

(** An HTTP server that answers every request with [code] and an empty
    header; reading the body of a response yields [body]. *)
Definition httpServer (code : Z) (body : string) : Script :=
  {| on_Stat := on_Stat quiet; on_Open := on_Open quiet;
     on_Mount := on_Mount quiet; on_Unmount := on_Unmount quiet;
     on_ShareStat := on_ShareStat quiet; on_FtpSize := on_FtpSize quiet;
     on_FtpList := on_FtpList quiet; on_Parse := on_Parse quiet;
     on_NewRequest := on_NewRequest quiet;
     on_Do := fun _ => Ok {| StatusCode := code; rs_Header := ∅; rs_Body := 1%nat |};
     on_ReadAll := fun _ => Ok body;
     on_TimeParse := on_TimeParse quiet |}.




(** A Linux host on which [/proc/mounts] cannot be opened, mounting
    works and unmounting fails (the target is busy). *)
Definition busyMount : Script :=
  {| on_Stat := on_Stat quiet; on_Open := on_Open quiet;
     on_Mount := None;
     on_Unmount := Some (External "device or resource busy" false);
     on_ShareStat := on_ShareStat quiet; on_FtpSize := on_FtpSize quiet;
     on_FtpList := on_FtpList quiet; on_Parse := on_Parse quiet;
     on_NewRequest := on_NewRequest quiet; on_Do := on_Do quiet;
     on_ReadAll := on_ReadAll quiet; on_TimeParse := on_TimeParse quiet |}.

(** The value a run returns, if it returns. *)
Definition result {A W : Type} (o : outcome A W) : option A :=
  match o with
  | Done a _ => Some a
  | Panicked _ _ => None
  end.

(** The requests among the external calls of a run, in order. *)
Definition requests (l : list {R : Type & Call R}) : list Request :=
  flat_map (fun x => match projT2 x with
                     | http_Do req => [req]
                     | _ => []
                     end) l.

(** The request [Connect] sends for the base URL [u]. *)
Definition connectRequest (ctx : Context) (c : WebDAV.Client) (u : URL) : Request :=
  WebDAV.setHeader
    (WebDAV.withAuth c (WebDAV.acceptedRequest ctx "PROPFIND" (GoURL.String u) NoBody))
    "Depth" "0".


(** ** Predicates of the sandboxing property *)

Definition startsWithDot (s : string) : bool :=
  match s with
  | String c _ => GoFilepath.isDot c
  | EmptyString => false
  end.

Fixpoint endsWithDot (s : string) : bool :=
  match s with
  | EmptyString => false
  | String c EmptyString => GoFilepath.isDot c
  | String _ r => endsWithDot r
  end.

(** Two dots in a row somewhere in [s]: [strings.Contains(s, "..")] by
    structural recursion. *)
Fixpoint hasDotDot (s : string) : bool :=
  match s with
  | EmptyString => false
  | String c r => (GoFilepath.isDot c && startsWithDot r) || hasDotDot r
  end.

(** [out] is the path [root] itself or a path below it: [root] followed
    by a separator, anything under the root directory [/], or a relative
    path under the current directory [.]. *)
Definition rootedAt (root out : string) : bool :=
  String.eqb out root
  || GoStrings.HasPrefix out (root +:+ "/")
  || (String.eqb root "/" && GoStrings.HasPrefix out "/")
  || (String.eqb root "." && negb (GoStrings.HasPrefix out "/")).

(** The strings [String()] can write beside the path of [u]: scheme,
    opaque part, user name, password (when one is set), host, the raw
    path, query, fragment and raw fragment. *)
Definition componentsBesidePath (u : URL) : list string :=
  [Scheme u; Opaque u;
   match User u with Some ui => username ui | None => "" end;
   match User u with
   | Some ui => if passwordSet ui then password ui else ""
   | None => ""
   end;
   Host u; RawPath u; RawQuery u; Fragment u; RawFragment u].

(** None of them has two dots in a row. *)
Definition noDotsBesidePath (u : URL) : bool :=
  forallb (fun s => negb (GoStrings.Contains s "..")) (componentsBesidePath u).

(** ** Concrete clients and answers used by the examples *)

(** An FTP server whose listing of any directory is [entries]. *)
Definition ftpServer (entries : list FtpEntry) : Script :=
  {| on_Stat := on_Stat quiet; on_Open := on_Open quiet;
     on_Mount := on_Mount quiet; on_Unmount := on_Unmount quiet;
     on_ShareStat := on_ShareStat quiet; on_FtpSize := on_FtpSize quiet;
     on_FtpList := fun _ => Ok entries;
     on_Parse := on_Parse quiet; on_NewRequest := on_NewRequest quiet;
     on_Do := on_Do quiet; on_ReadAll := on_ReadAll quiet;
     on_TimeParse := on_TimeParse quiet |}.

(** A [url.Parse] that answers [u]. *)
Definition urlParser (u : URL) : Script :=
  {| on_Stat := on_Stat quiet; on_Open := on_Open quiet;
     on_Mount := on_Mount quiet; on_Unmount := on_Unmount quiet;
     on_ShareStat := on_ShareStat quiet; on_FtpSize := on_FtpSize quiet;
     on_FtpList := on_FtpList quiet;
     on_Parse := fun _ => Ok u; on_NewRequest := on_NewRequest quiet;
     on_Do := on_Do quiet; on_ReadAll := on_ReadAll quiet;
     on_TimeParse := on_TimeParse quiet |}.

Definition background : Context := 0%nat.

(** The client of TestWebDAVClient_ListDirectory_Success: the test
    server's URL followed by [/webdav], no credentials, [connected] set
    by hand. *)
Definition davBase : URL :=
  {| Scheme := "http"; Opaque := ""; User := None; Host := "127.0.0.1:8080";
     UPath := "/webdav"; RawPath := ""; OmitHost := false;
     ForceQuery := false; RawQuery := ""; Fragment := ""; RawFragment := "" |}.

(** The URL [http://localhost/webdav] as [url.Parse] returns it. *)
Definition davLocalhost : URL :=
  {| Scheme := "http"; Opaque := ""; User := None; Host := "localhost";
     UPath := "/webdav"; RawPath := ""; OmitHost := false;
     ForceQuery := false; RawQuery := ""; Fragment := ""; RawFragment := "" |}.

Definition davClient : WebDAV.Client :=
  {| WebDAV.config := {| WebDAV.CURL := "http://127.0.0.1:8080/webdav";
                         WebDAV.Username := ""; WebDAV.Password := "";
                         WebDAV.CPath := "" |};
     WebDAV.timeoutSeconds := 30;
     WebDAV.baseURL := Some davBase;
     WebDAV.connected := true |}.

(** The multistatus body that test's server sends. *)
Definition davListing : string :=
  "<?xml version=" +:+ WebDAV.dq +:+ "1.0" +:+ WebDAV.dq +:+ " encoding="
  +:+ WebDAV.dq +:+ "utf-8" +:+ WebDAV.dq +:+ "?>" +:+ WebDAV.nl
  +:+ "<D:multistatus xmlns:D=" +:+ WebDAV.dq +:+ "DAV:" +:+ WebDAV.dq +:+ ">"
  +:+ WebDAV.nl
  +:+ "<D:response>" +:+ WebDAV.nl
  +:+ "<D:href>/webdav/</D:href>" +:+ WebDAV.nl
  +:+ "<D:propstat><D:prop><D:displayname>webdav</D:displayname>"
  +:+ "<D:resourcetype><D:collection/></D:resourcetype></D:prop></D:propstat>"
  +:+ WebDAV.nl
  +:+ "</D:response>" +:+ WebDAV.nl
  +:+ "<D:response>" +:+ WebDAV.nl
  +:+ "<D:href>/webdav/file1.txt</D:href>" +:+ WebDAV.nl
  +:+ "<D:propstat><D:prop><D:displayname>file1.txt</D:displayname>"
  +:+ "<D:getcontentlength>512</D:getcontentlength>"
  +:+ "<D:getlastmodified>Mon, 02 Jan 2006 15:04:05 GMT</D:getlastmodified>"
  +:+ "<D:resourcetype/></D:prop></D:propstat>" +:+ WebDAV.nl
  +:+ "</D:response>" +:+ WebDAV.nl
  +:+ "<D:response>" +:+ WebDAV.nl
  +:+ "<D:href>/webdav/subdir/</D:href>" +:+ WebDAV.nl
  +:+ "<D:propstat><D:prop><D:displayname>subdir</D:displayname>"
  +:+ "<D:resourcetype><D:collection/></D:resourcetype></D:prop></D:propstat>"
  +:+ WebDAV.nl
  +:+ "</D:response>" +:+ WebDAV.nl
  +:+ "</D:multistatus>".

(** The same listing with the resource identifiers written as full
    URLs, the collection's own with its trailing slash. *)
Definition davListingAbsolute : string :=
  "<D:multistatus>"
  +:+ "<D:response><D:href>http://127.0.0.1:8080/webdav/</D:href>"
  +:+ "<D:resourcetype><D:collection/></D:resourcetype></D:response>"
  +:+ "<D:response><D:href>http://127.0.0.1:8080/webdav/file1.txt</D:href>"
  +:+ "<D:getcontentlength>512</D:getcontentlength></D:response>"
  +:+ "</D:multistatus>".

(** An NFS client as [NewNFSClient] returns it. *)
Definition nfsConfig : NFS.Config :=
  {| NFS.CHost := "nas.local"; NFS.CPath := "/export/media";
     NFS.MountPoint := "/mnt/nfs"; NFS.Options := "" |}.

Definition nfsClient : NFS.Client :=
  {| NFS.config := nfsConfig; NFS.mounted := false; NFS.connected := false;
     NFS.mountPoint := "/mnt/nfs" |}.

(** The same client after a [Connect] that mounted the share. *)
Definition nfsMounted : NFS.Client :=
  {| NFS.config := nfsConfig; NFS.mounted := true; NFS.connected := true;
     NFS.mountPoint := "/mnt/nfs" |}.

(** An SMB client holding a connection, a session and a share. *)
Definition smbClient : SMB.Client :=
  {| SMB.conn := Some 1%nat; SMB.session := Some 2%nat; SMB.share := Some 3%nat;
     SMB.config := {| SMB.CHost := "nas.local"; SMB.CPort := 445;
                      SMB.Share := "media"; SMB.Username := "admin";
                      SMB.Password := "s3cret"; SMB.Domain := "WORKGROUP" |} |}.

(** A connected FTP client with the base directory [/data]. *)
Definition ftpClient : FTP.Client :=
  {| FTP.config := {| FTP.CHost := "localhost"; FTP.CPort := 21;
                      FTP.Username := "user"; FTP.Password := "pass";
                      FTP.CPath := "/data" |};
     FTP.client := Some 1%nat;
     FTP.connected := true |}.

(** A listing with an entry whose size is the largest uint64. *)
Definition hugeListing : list FtpEntry :=
  [ {| ftp_Name := "small.txt"; ftp_Size := 5; ftp_Time := 0;
       ftp_Type := EntryTypeFile |};
    {| ftp_Name := "huge.bin"; ftp_Size := 2 ^ 64 - 1; ftp_Time := 0;
       ftp_Type := EntryTypeFile |} ].

Definition bogusDescriptor : Factory.StorageConfig :=
  {| Factory.ID := "s1"; Factory.SName := "Bogus"; Factory.Protocol := "bogus";
     Factory.Enabled := true; Factory.MaxDepth := 10; Factory.Settings := ∅;
     Factory.CreatedAt := 0; Factory.UpdatedAt := 0 |}.

(** * Properties *)

(** ** Runs of composed programs *)



Lemma run_call {W R : Type} (h : handler W) (e : Call R) (w : W) :
  run h (call e) w = Done (fst (h R e w)) (snd (h R e w)).
Proof. unfold call. simpl. destruct (h R e w); reflexivity. Qed.

(** ** C2: operations on a disconnected adapter *)





(** ** C8: Disconnect twice *)

Ltac run_cases :=
  unfold call; cbn [run bind];
  repeat match goal with
         | |- context [let '(_, _) := ?h ?R ?e ?w in _] =>
             destruct (h R e w) as [[?|] ?]; cbn [run bind]
         end.

Lemma smb_disconnect_clears (W : Type) (h : handler W) ctx c w e1 c1 w1 :
  run h (SMB.Disconnect ctx c) w = Done (e1, c1) w1 ->
  c1 = {| SMB.conn := None; SMB.session := None; SMB.share := None;
          SMB.config := SMB.config c |}.
Proof.
  unfold SMB.Disconnect.
  destruct (SMB.share c), (SMB.session c), (SMB.conn c); run_cases;
    intros H; injection H; intros; subst; reflexivity.
Qed.

Lemma ftp_disconnect_clears (W : Type) (h : handler W) ctx c w e1 c1 w1 :
  run h (FTP.Disconnect ctx c) w = Done (e1, c1) w1 ->
  c1 = {| FTP.config := FTP.config c; FTP.client := None;
          FTP.connected := false |}.
Proof.
  unfold FTP.Disconnect.
  destruct (FTP.client c) eqn:E; run_cases;
    intros H; injection H; intros; subst; reflexivity.
Qed.

Lemma nfs_disconnect_clears (W : Type) (h : handler W) ctx c w c1 w1 :
  run h (NFS.Disconnect ctx c) w = Done (None, c1) w1 ->
  NFS.mounted c1 = false /\ NFS.connected c1 = false.
Proof.
  unfold NFS.Disconnect.
  destruct (NFS.mounted c) eqn:E; run_cases;
    intros H; injection H; intros; subst; try discriminate; simpl; auto.
Qed.

(** C8 (as amended).  For Local, SMB, FTP and WebDAV after any first
    [Disconnect], and for NFS after a first [Disconnect] that returned
    nil: a second [Disconnect] returns nil, makes no external call and
    leaves the state as the first call left it, and [IsConnected] then
    answers false. *)
Theorem disconnect_twice
  (A : Adapter) (W : Type) (h : handler W) (ctx : Context) (c : State A)
  (w : W) (e1 : error) (c1 : State A) (w1 : W) :
  In A adapters ->
  run h (a_Disconnect A ctx c) w = Done (e1, c1) w1 ->
  (a_GetProtocol A = "nfs" -> e1 = None) ->
  run h (a_Disconnect A ctx c1) w1 = Done (None, c1) w1
  /\ calls h (a_Disconnect A ctx c1) w1 = []
  /\ run h (a_IsConnected A c1) w1 = Done false w1.
Proof.
  intros HA H1 Hnfs. unfold adapters in HA. simpl in HA.
  destruct HA as [<- | [<- | [<- | [<- | [<- | []]]]]]; cbn in c, c1, H1, Hnfs |- *.
  - injection H1 as <- <- <-. repeat split; reflexivity.
  - apply smb_disconnect_clears in H1. subst c1. repeat split; reflexivity.
  - apply ftp_disconnect_clears in H1. subst c1. repeat split; reflexivity.
  - rewrite (Hnfs eq_refl) in H1. apply nfs_disconnect_clears in H1.
    destruct H1 as [Hm Hc]. unfold NFS.Disconnect, NFS.IsConnected.
    rewrite Hm, Hc. destruct c1; simpl in *; subst. repeat split; reflexivity.
  - injection H1 as <- <- <-. repeat split; reflexivity.
Qed.

(** ** C5: WebDAV Connect *)

(** C5 (as amended).  With a base URL, [Connect] returns without a panic;
    it sends at most one request, the PROPFIND for the base URL with the
    header [Depth: 0]; it returns nil exactly when the request was
    accepted and answered with the status 200 or 207; on nil the adapter
    is Connected, and on an error its state is as before the call. *)
Theorem webdav_connect_200_or_207 (W : Type) (h : handler W) (ctx : Context)
  (c : WebDAV.Client) (u : URL) (w : W) :
  WebDAV.baseURL c = Some u ->
  exists e c' w',
    run h (WebDAV.Connect ctx c) w = Done (e, c') w'
    /\ (e = None <->
        exists w1 resp w2,
          h _ (http_NewRequestWithContext ctx "PROPFIND" (GoURL.String u)) w
          = (None, w1)
          /\ h _ (http_Do (connectRequest ctx c u)) w1 = (Ok resp, w2)
          /\ (StatusCode resp = 200 \/ StatusCode resp = 207))
    /\ (e = None -> c' = WebDAV.set_connected true c)
    /\ (e <> None -> c' = c)
    /\ (requests (calls h (WebDAV.Connect ctx c) w) = []
        \/ requests (calls h (WebDAV.Connect ctx c) w) = [connectRequest ctx c u])
    /\ rq_Method (connectRequest ctx c u) = "PROPFIND"
    /\ rq_URL (connectRequest ctx c u) = GoURL.String u
    /\ rq_Header (connectRequest ctx c u) = [("Depth", "0")].
Proof.
  intros Hu.
  assert (Hreq : rq_Method (connectRequest ctx c u) = "PROPFIND"
                 /\ rq_URL (connectRequest ctx c u) = GoURL.String u
                 /\ rq_Header (connectRequest ctx c u) = [("Depth", "0")]).
  { unfold connectRequest, WebDAV.withAuth.
    destruct (negb _); repeat split; reflexivity. }
  unfold WebDAV.Connect, WebDAV.base_of, WebDAV.newRequest, call. rewrite Hu.
  cbn [run bind calls].
  destruct (h _ (http_NewRequestWithContext ctx "PROPFIND" (GoURL.String u)) w)
    as [[err|] w1] eqn:E1; cbn [run bind calls].
  { do 3 eexists. split; [reflexivity|]. repeat split; try apply Hreq.
    - discriminate.
    - intros (w1' & resp & w2 & H1 & _). discriminate.
    - discriminate.
    - left. reflexivity. }
  fold (connectRequest ctx c u).
  destruct (h _ (http_Do (connectRequest ctx c u)) w1) as [[resp|err] w2] eqn:E2;
    cbn [run bind calls].
  2:{ do 3 eexists. split; [reflexivity|]. repeat split; try apply Hreq.
      - discriminate.
      - intros (w1' & resp & w2' & H1 & H2 & _).
        injection H1 as <-. rewrite E2 in H2. discriminate.
      - discriminate.
      - right. reflexivity. }
  destruct (h _ (File_Close (rs_Body resp)) w2) as [x w3] eqn:E3.
  cbn [run bind calls]. unfold StatusMultiStatus, StatusOK.
  assert (Hcalls : requests (existT _ (http_NewRequestWithContext ctx "PROPFIND"
                                          (GoURL.String u))
                             :: existT _ (http_Do (connectRequest ctx c u))
                             :: [existT _ (File_Close (rs_Body resp))])
                   = [connectRequest ctx c u]) by reflexivity.
  assert (Hok : (StatusCode resp =? 207) || (StatusCode resp =? 200) = true ->
                exists w1' resp' w2',
                  (None, w1) = (None (A:=error_value), w1')
                  /\ h _ (http_Do (connectRequest ctx c u)) w1' = (Ok resp', w2')
                  /\ (StatusCode resp' = 200 \/ StatusCode resp' = 207)).
  { intros Hs. exists w1, resp, w2. repeat split; [assumption|].
    apply orb_true_iff in Hs. destruct Hs as [Hs|Hs]; apply Z.eqb_eq in Hs; auto. }
  assert (Hko : (StatusCode resp =? 207) || (StatusCode resp =? 200) = false ->
                ~ exists w1' resp' w2',
                    (None, w1) = (None (A:=error_value), w1')
                    /\ h _ (http_Do (connectRequest ctx c u)) w1' = (Ok resp', w2')
                    /\ (StatusCode resp' = 200 \/ StatusCode resp' = 207)).
  { intros Hs (w1' & resp' & w2' & H1 & H2 & Hr).
    injection H1 as <-. rewrite E2 in H2. injection H2 as <- <-.
    apply orb_false_iff in Hs. destruct Hs as [S207 S200].
    apply Z.eqb_neq in S207, S200. destruct Hr; contradiction. }
  destruct ((StatusCode resp =? 207) || (StatusCode resp =? 200)) eqn:Hs.
  - replace (negb (StatusCode resp =? 207) && negb (StatusCode resp =? 200))
      with false
      by (rewrite <- negb_orb, Hs; reflexivity).
    cbn [run calls]. do 3 eexists. split; [reflexivity|].
    repeat split; try apply Hreq; auto.
    intros Hne. contradiction Hne. reflexivity.
  - replace (negb (StatusCode resp =? 207) && negb (StatusCode resp =? 200))
      with true
      by (rewrite <- negb_orb, Hs; reflexivity).
    cbn [run calls]. do 3 eexists. split; [reflexivity|].
    repeat split; try apply Hreq; auto.
    + discriminate.
    + intros Hex. exfalso. apply (Hko eq_refl). exact Hex.
    + discriminate.
Qed.

(** ** Facts about [strings.Contains] *)

Lemma Index_lower (s sub : string) : -1 <= GoStrings.Index s sub.
Proof.
  induction s as [|c s IH]; cbn [GoStrings.Index].
  - destruct (GoStrings.HasPrefix "" sub); lia.
  - destruct (GoStrings.HasPrefix (String c s) sub); [lia|].
    cbv zeta. destruct (GoStrings.Index s sub <? 0) eqn:E; [lia|].
    apply Z.ltb_ge in E. lia.
Qed.

Lemma Contains_cons (c : ascii) (s sub : string) :
  GoStrings.Contains (String c s) sub
  = GoStrings.HasPrefix (String c s) sub || GoStrings.Contains s sub.
Proof.
  unfold GoStrings.Contains. cbn [GoStrings.Index].
  destruct (GoStrings.HasPrefix (String c s) sub); [reflexivity|].
  cbn [orb]. cbv zeta. pose proof (Index_lower s sub).
  destruct (GoStrings.Index s sub <? 0) eqn:E.
  - apply Z.ltb_lt in E. symmetry. apply Z.leb_gt. lia.
  - apply Z.ltb_ge in E. transitivity true; [apply Z.leb_le; lia|].
    symmetry. apply Z.leb_le. lia.
Qed.

Lemma HasPrefix_app (p s : string) : GoStrings.HasPrefix (p +:+ s) p = true.
Proof.
  induction p as [|c p IH]; simpl; [reflexivity|].
  rewrite Ascii.eqb_refl. exact IH.
Qed.

Lemma HasPrefix_refl (s : string) : GoStrings.HasPrefix s s = true.
Proof.
  induction s as [|c s IH]; simpl; [reflexivity|].
  rewrite Ascii.eqb_refl. exact IH.
Qed.

Lemma Contains_prefix (s sub : string) :
  GoStrings.HasPrefix s sub = true -> GoStrings.Contains s sub = true.
Proof.
  intros H. unfold GoStrings.Contains.
  destruct s; simpl in *; rewrite H; reflexivity.
Qed.

Lemma Contains_app_r (a b sub : string) :
  GoStrings.Contains b sub = true -> GoStrings.Contains (a +:+ b) sub = true.
Proof.
  intros H. induction a as [|c a IH]; [exact H|].
  change (String c a +:+ b) with (String c (a +:+ b)).
  rewrite Contains_cons, IH. apply orb_true_r.
Qed.

Lemma app_cons (c : ascii) (a b : string) :
  String c a +:+ b = String c (a +:+ b).
Proof. reflexivity. Qed.

Lemma app_nil_l_str (b : string) : "" +:+ b = b.
Proof. reflexivity. Qed.

Lemma str_length_app (a b : string) :
  String.length (a +:+ b) = (String.length a + String.length b)%nat.
Proof.
  induction a as [|c a IH]; [reflexivity|].
  rewrite app_cons. cbn [String.length]. rewrite IH. reflexivity.
Qed.

Lemma str_app_assoc (a b c : string) : (a +:+ b) +:+ c = a +:+ (b +:+ c).
Proof.
  induction a as [|x a IH]; [reflexivity|].
  rewrite !app_cons. f_equal. exact IH.
Qed.

Lemma drop_app (a b : string) : GoStrings.drop (String.length a) (a +:+ b) = b.
Proof.
  induction a as [|c a IH]; [reflexivity|].
  rewrite app_cons. cbn [String.length GoStrings.drop]. exact IH.
Qed.

Lemma HasSuffix_app (a b : string) : GoStrings.HasSuffix (a +:+ b) b = true.
Proof.
  unfold GoStrings.HasSuffix. rewrite str_length_app.
  replace (String.length a + String.length b - String.length b)%nat
    with (String.length a) by lia.
  rewrite drop_app, String.eqb_refl.
  rewrite andb_true_r. apply Nat.leb_le. lia.
Qed.

(** ** C4: FileExists *)



(** ** C6: FTP path resolution *)

(** C6.  The FTP adapter's [resolvePath] returns the base path, a slash
    and [p] as given when the base path is not empty, and [p] itself when
    it is; nothing is normalised: [p] is the end of the result, so every
    [..] of [p] is still there. *)
Theorem ftp_resolvePath_concatenates (c : FTP.Client) (p : string) :
  FTP.resolvePath c p
  = (if String.eqb (FTP.CPath (FTP.config c)) "" then p
     else FTP.CPath (FTP.config c) +:+ "/" +:+ p)
  /\ GoStrings.HasSuffix (FTP.resolvePath c p) p = true
  /\ implb (GoStrings.Contains p "..")
       (GoStrings.Contains (FTP.resolvePath c p) "..") = true.
Proof.
  unfold FTP.resolvePath.
  destruct (String.eqb (FTP.CPath (FTP.config c)) "") eqn:E; cbn [negb].
  - split; [reflexivity|split].
    + apply (HasSuffix_app "" p).
    + destruct (GoStrings.Contains p ".."); reflexivity.
  - split; [reflexivity|split].
    + rewrite <- str_app_assoc. apply HasSuffix_app.
    + destruct (GoStrings.Contains p "..") eqn:Ep; [|reflexivity].
      cbn [implb]. apply Contains_app_r, Contains_app_r. reflexivity || exact Ep.
Qed.

(** ** C7: the factory *)

Lemma eqb_false_of_not_in (tag x : string) (l : list string) :
  ~ In tag l -> In x l -> String.eqb tag x = false.
Proof. intros Hn Hi. apply String.eqb_neq. intros ->. contradiction. Qed.

(** C7.  For a descriptor whose protocol tag is none of the five
    supported ones, [CreateClient] returns a nil client and the error
    "unsupported protocol: " followed by the tag, without any external
    call, on either platform; and [SupportedProtocols] is the fixed list
    smb, ftp, nfs, webdav, local. *)
Theorem factory_unsupported_protocol (linux : bool)
  (config : Factory.StorageConfig) :
  ~ In (Factory.Protocol config) ["smb"; "ftp"; "nfs"; "webdav"; "local"] ->
  Factory.CreateClient linux config
  = Ret (None, errorf ("unsupported protocol: " +:+ Factory.Protocol config))
  /\ errorContains (errorf ("unsupported protocol: " +:+ Factory.Protocol config))
       "unsupported protocol" = true
  /\ errorContains (errorf ("unsupported protocol: " +:+ Factory.Protocol config))
       (Factory.Protocol config) = true
  /\ Factory.SupportedProtocols = ["smb"; "ftp"; "nfs"; "webdav"; "local"].
Proof.
  intros Hn. split; [|split; [|split]].
  - unfold Factory.CreateClient.
    rewrite !(eqb_false_of_not_in _ _ _ Hn) by (simpl; tauto). reflexivity.
  - reflexivity.
  - cbn [errorContains errorf Error]. apply Contains_app_r.
    apply Contains_prefix, HasPrefix_refl.
  - reflexivity.
Qed.

(** ** C9: sizes of an FTP listing *)

Lemma entrySize_clamps (entry : FtpEntry) :
  0 <= ftp_Size entry < 2 ^ 64 ->
  FTP.entrySize entry = Z.min (ftp_Size entry) (2 ^ 63 - 1).
Proof.
  intros H. unfold FTP.entrySize, FTP.int64_of_uint64.
  destruct (2 ^ 63 - 1 <? ftp_Size entry) eqn:E.
  - apply Z.ltb_lt in E. lia.
  - apply Z.ltb_ge in E.
    destruct (ftp_Size entry <? 2 ^ 63) eqn:E2.
    + lia.
    + apply Z.ltb_ge in E2. lia.
Qed.

Lemma entryInfo_sizes (path : string) (entries : list FtpEntry) :
  Forall (fun entry => 0 <= ftp_Size entry < 2 ^ 64) entries ->
  Forall (fun f => 0 <= Size f <= 2 ^ 63 - 1) (map (FTP.entryInfo path) entries)
  /\ Forall2 (fun entry f => Size f = Z.min (ftp_Size entry) (2 ^ 63 - 1)
                             /\ Name f = ftp_Name entry)
       entries (map (FTP.entryInfo path) entries).
Proof.
  induction 1 as [|entry es Hx Hes [IH1 IH2]]; cbn [map].
  - split; constructor.
  - split; constructor; try assumption; cbn [FTP.entryInfo Size Name];
      rewrite entrySize_clamps by exact Hx; [lia|split; reflexivity].
Qed.

(** C9.  When the FTP library lists entries whose sizes are uint64
    values, every [FileInfo] that [ListDirectory] returns has a size
    between 0 and 2^63 - 1: the entry's size if that is at most 2^63 - 1,
    and exactly 2^63 - 1 otherwise. *)
Theorem ftp_list_sizes_clamped (W : Type) (h : handler W) (ctx : Context)
  (c : FTP.Client) (path : string) (w : W)
  (files : list FileInfo) (err : error) (c' : FTP.Client) (w' : W) :
  (forall conn p w0 entries w1,
      h _ (ftp_List conn p) w0 = (Ok entries, w1) ->
      Forall (fun entry => 0 <= ftp_Size entry < 2 ^ 64) entries) ->
  run h (FTP.ListDirectory ctx c path) w = Done (files, err, c') w' ->
  Forall (fun f => 0 <= Size f <= 2 ^ 63 - 1) files
  /\ (err = None ->
      exists conn entries w0,
        h _ (ftp_List conn (FTP.resolvePath c path)) w0 = (Ok entries, w')
        /\ Forall2 (fun entry f => Size f = Z.min (ftp_Size entry) (2 ^ 63 - 1)
                                   /\ Name f = ftp_Name entry)
             entries files).
Proof.
  intros Hu. unfold FTP.ListDirectory, FTP.conn_of, call.
  destruct (FTP.IsConnected c) eqn:Ec; cbn [negb run bind].
  2:{ intros H. injection H as <- <- <- <-. split; [constructor|discriminate]. }
  destruct (FTP.client c) as [conn|] eqn:Ecl; cbn [run bind]; [|discriminate].
  destruct (h _ (ftp_List conn (FTP.resolvePath c path)) w) as [[entries|e] w1] eqn:El;
    cbn [run bind]; intros H; injection H as <- <- <- <-.
  2:{ split; [constructor|discriminate]. }
  destruct (entryInfo_sizes path entries (Hu _ _ _ _ _ El)) as [H1 H2].
  split; [exact H1|].
  intros _. exists conn, entries, w. split; [exact El|exact H2].
Qed.

(** ** C10: the base URL of a new WebDAV client *)

(** C10.  When [url.Parse] accepts [Config.URL], [NewWebDAVClient]
    returns a disconnected client for the configuration whose base URL is
    the parsed URL, with its path component replaced by [Config.Path]
    when that is neither empty nor "/" (scheme, host and query, and
    every other field, are kept), and unchanged otherwise. *)
Theorem webdav_new_client_base_url (W : Type) (h : handler W)
  (cfg : WebDAV.Config) (u : URL) (w w' : W) :
  h _ (url_Parse (WebDAV.CURL cfg)) w = (Ok u, w') ->
  exists c b,
    run h (WebDAV.NewWebDAVClient cfg) w = Done c w'
    /\ WebDAV.config c = cfg /\ WebDAV.connected c = false
    /\ WebDAV.baseURL c = Some b
    /\ (WebDAV.CPath cfg <> "" /\ WebDAV.CPath cfg <> "/" ->
        UPath b = WebDAV.CPath cfg /\ Scheme b = Scheme u /\ Host b = Host u
        /\ RawQuery b = RawQuery u /\ b = set_UPath u (WebDAV.CPath cfg))
    /\ (WebDAV.CPath cfg = "" \/ WebDAV.CPath cfg = "/" -> b = u).
Proof.
  intros Hp. unfold WebDAV.NewWebDAVClient, call. cbn [run bind]. rewrite Hp.
  destruct (String.eqb (WebDAV.CPath cfg) "") eqn:E1;
    destruct (String.eqb (WebDAV.CPath cfg) "/") eqn:E2;
    cbn [negb andb run]; do 2 eexists; (split; [reflexivity|]);
    cbn [WebDAV.config WebDAV.connected WebDAV.baseURL];
    repeat split; try reflexivity;
    try apply String.eqb_eq in E1; try apply String.eqb_eq in E2;
    try apply String.eqb_neq in E1; try apply String.eqb_neq in E2;
    try tauto; try congruence; try (intros [? | ?]; congruence).
Qed.


(** ** C1: the path sandboxer *)

Lemma Contains_hasDotDot (s : string) : GoStrings.Contains s ".." = hasDotDot s.
Proof.
  induction s as [|c s IH]; [reflexivity|].
  rewrite Contains_cons, IH. cbn [hasDotDot GoStrings.HasPrefix].
  f_equal. unfold GoFilepath.isDot. f_equal.
  destruct s as [|d s]; [reflexivity|].
  cbn [GoStrings.HasPrefix startsWithDot]. apply andb_true_r.
Qed.

Lemma hasDotDot_tail (c : ascii) (r : string) :
  hasDotDot (String c r) = false -> hasDotDot r = false.
Proof. cbn [hasDotDot]. intros H. apply orb_false_iff in H. tauto. Qed.

Lemma hasDotDot_head (c : ascii) (r : string) :
  hasDotDot (String c r) = false ->
  GoFilepath.isDot c = true -> startsWithDot r = false.
Proof.
  cbn [hasDotDot]. intros H Hc. apply orb_false_iff in H. destruct H as [H _].
  rewrite Hc in H. exact H.
Qed.

(** Removing every [..], left to right, leaves none. *)
Lemma strip_no_dotdot (n : nat) (s : string) :
  (String.length s <= n)%nat ->
  hasDotDot (GoStrings.replace_scan ".." "" 0 s) = false
  /\ (startsWithDot (GoStrings.replace_scan ".." "" 0 s) = true ->
      startsWithDot s = true).
Proof.
  revert s. induction n as [|n IH]; intros s Hlen.
  - destruct s; [split; [reflexivity|discriminate]|simpl in Hlen; lia].
  - destruct s as [|c r]; [split; [reflexivity|discriminate]|].
    cbn [GoStrings.replace_scan GoStrings.HasPrefix].
    fold (GoFilepath.isDot c).
    destruct (GoFilepath.isDot c) eqn:Ec; cbn [andb].
    + destruct r as [|d r']; cbn [GoStrings.HasPrefix].
      * cbn [GoStrings.replace_scan hasDotDot startsWithDot].
        rewrite Ec. split; reflexivity.
      * fold (GoFilepath.isDot d).
        destruct (GoFilepath.isDot d) eqn:Ed; cbn [andb].
        -- cbn [String.length Nat.sub GoStrings.replace_scan].
           rewrite app_nil_l_str.
           destruct (IH r') as [H1 H2]; [cbn [String.length] in Hlen |- *; lia|].
           split; [exact H1|]. intros _. exact Ec.
        -- destruct (IH (String d r')) as [H1 H2]; [cbn [String.length] in Hlen |- *; lia|].
           split.
           ++ cbn [hasDotDot]. rewrite H1, orb_false_r.
              destruct (startsWithDot _) eqn:Es; [|apply andb_false_r].
              specialize (H2 eq_refl). cbn [startsWithDot] in H2.
              congruence.
           ++ intros _. exact Ec.
    + destruct (IH r) as [H1 H2]; [cbn [String.length] in Hlen |- *; lia|].
      split.
      * cbn [hasDotDot]. rewrite H1, orb_false_r, Ec. reflexivity.
      * cbn [startsWithDot]. rewrite Ec. discriminate.
Qed.

Lemma cleaned_no_dotdot (path : string) :
  hasDotDot (if GoStrings.Contains (GoFilepath.Clean path) ".."
             then GoStrings.ReplaceAll (GoFilepath.Clean path) ".." ""
             else GoFilepath.Clean path) = false.
Proof.
  rewrite Contains_hasDotDot.
  destruct (hasDotDot (GoFilepath.Clean path)) eqn:E; [|exact E].
  unfold GoStrings.ReplaceAll.
  apply (strip_no_dotdot (String.length (GoFilepath.Clean path))). lia.
Qed.

(** *** Dots at the seams of a concatenation *)

Lemma startsWithDot_app (a b : string) :
  startsWithDot (a +:+ b)
  = match a with EmptyString => startsWithDot b | _ => startsWithDot a end.
Proof. destruct a; reflexivity. Qed.

Lemma endsWithDot_cons (c : ascii) (a : string) :
  endsWithDot (String c a)
  = match a with EmptyString => GoFilepath.isDot c | _ => endsWithDot a end.
Proof. destruct a; reflexivity. Qed.

Lemma endsWithDot_app (a b : string) :
  endsWithDot (a +:+ b)
  = match b with EmptyString => endsWithDot a | _ => endsWithDot b end.
Proof.
  induction a as [|c a IH].
  - rewrite app_nil_l_str. destruct b; reflexivity.
  - rewrite app_cons, !endsWithDot_cons, IH.
    destruct a as [|d a].
    + rewrite app_nil_l_str. destruct b; reflexivity.
    + rewrite app_cons. destruct b; reflexivity.
Qed.

Lemma hasDotDot_app (a b : string) :
  hasDotDot (a +:+ b)
  = hasDotDot a || hasDotDot b || (endsWithDot a && startsWithDot b).
Proof.
  induction a as [|c a IH].
  - rewrite app_nil_l_str. cbn [hasDotDot endsWithDot andb orb].
    rewrite orb_false_r. reflexivity.
  - rewrite app_cons. cbn [hasDotDot]. rewrite IH, startsWithDot_app.
    rewrite endsWithDot_cons.
    destruct a as [|d a].
    + cbn [hasDotDot startsWithDot endsWithDot].
      destruct (GoFilepath.isDot c), (hasDotDot b), (startsWithDot b); reflexivity.
    + destruct (GoFilepath.isDot c), (startsWithDot (String d a)),
        (hasDotDot (String d a)), (hasDotDot b), (endsWithDot (String d a)),
        (startsWithDot b); reflexivity.
Qed.

Lemma string_of_list_app (a b : list ascii) :
  string_of_list_ascii (a ++ b)
  = string_of_list_ascii a +:+ string_of_list_ascii b.
Proof.
  induction a as [|c a IH]; [reflexivity|].
  cbn [app string_of_list_ascii]. rewrite IH. reflexivity.
Qed.

Lemma bufString_cons (c : ascii) (buf : list ascii) :
  GoFilepath.bufString (c :: buf)
  = GoFilepath.bufString buf +:+ String c EmptyString.
Proof.
  unfold GoFilepath.bufString. cbn [rev]. apply string_of_list_app.
Qed.

Lemma bufString_app (ext buf : list ascii) :
  GoFilepath.bufString (ext ++ buf)
  = GoFilepath.bufString buf +:+ GoFilepath.bufString ext.
Proof.
  unfold GoFilepath.bufString. rewrite rev_app_distr. apply string_of_list_app.
Qed.

Lemma HasPrefix_app_l (a b p : string) :
  GoStrings.HasPrefix a p = true -> GoStrings.HasPrefix (a +:+ b) p = true.
Proof.
  revert a. induction p as [|x p IH]; intros a H; [reflexivity|].
  destruct a as [|c a]; [discriminate|].
  rewrite app_cons. cbn [GoStrings.HasPrefix] in *.
  apply andb_true_iff in H. destruct H as [H1 H2].
  rewrite H1, (IH a H2). reflexivity.
Qed.

(** *** [Clean] on a path without two dots in a row *)

Lemma isSep_not_dot (c : ascii) :
  GoFilepath.isSep c = true -> GoFilepath.isDot c = false.
Proof.
  unfold GoFilepath.isSep, GoFilepath.isDot. intros H.
  apply Ascii.eqb_eq in H. subst. reflexivity.
Qed.

Lemma clean_loop_plain (s : string) :
  forall rooted copying buf dotdot,
    hasDotDot s = false ->
    GoFilepath.clean_loop rooted copying buf dotdot s
    = GoFilepath.plain_loop rooted copying buf s.
Proof.
  induction s as [|c r IH]; intros rooted copying buf dotdot H; [reflexivity|].
  pose proof (hasDotDot_tail _ _ H) as Hr.
  cbn [GoFilepath.clean_loop GoFilepath.plain_loop].
  destruct (GoFilepath.isSep c); [apply IH; exact Hr|].
  destruct copying; [apply IH; exact Hr|].
  destruct (GoFilepath.isDot c && GoFilepath.atBoundary r) eqn:E1;
    [apply IH; exact Hr|].
  destruct r as [|c2 r2]; [apply IH; exact Hr|].
  destruct (GoFilepath.isDot c) eqn:Ec.
  - pose proof (hasDotDot_head _ _ H Ec) as Hd. cbn [startsWithDot] in Hd.
    rewrite Hd. cbn [andb]. apply IH; exact Hr.
  - cbn [andb]. apply IH; exact Hr.
Qed.

(** The buffer stays free of [..] and keeps its leading slash. *)
Lemma plain_loop_no_dotdot (s : string) :
  forall rooted copying buf,
    hasDotDot s = false ->
    hasDotDot (GoFilepath.bufString buf) = false ->
    (rooted = true -> GoStrings.HasPrefix (GoFilepath.bufString buf) "/" = true) ->
    (copying = true -> endsWithDot (GoFilepath.bufString buf) = true ->
     startsWithDot s = false) ->
    hasDotDot (GoFilepath.bufString (GoFilepath.plain_loop rooted copying buf s))
    = false.
Proof.
  induction s as [|c r IH]; intros rooted copying buf H Hb Hroot Hcopy;
    [exact Hb|].
  pose proof (hasDotDot_tail _ _ H) as Hr.
  cbn [GoFilepath.plain_loop].
  destruct (GoFilepath.isSep c) eqn:Es.
  { apply IH; [exact Hr|exact Hb|exact Hroot|discriminate]. }
  assert (Hsnoc : forall b,
             hasDotDot (GoFilepath.bufString b) = false ->
             (endsWithDot (GoFilepath.bufString b) = true ->
              GoFilepath.isDot c = false) ->
             hasDotDot (GoFilepath.bufString (c :: b)) = false).
  { intros b Hb1 Hb2. rewrite bufString_cons, hasDotDot_app, Hb1.
    cbn [hasDotDot startsWithDot orb andb].
    rewrite andb_false_r. cbn [orb].
    destruct (endsWithDot (GoFilepath.bufString b)); [|reflexivity].
    rewrite (Hb2 eq_refl). reflexivity. }
  assert (Hnext : forall b,
             endsWithDot (GoFilepath.bufString (c :: b)) = true ->
             startsWithDot r = false).
  { intros b. rewrite bufString_cons, endsWithDot_app. cbn [endsWithDot].
    intros Hc. exact (hasDotDot_head _ _ H Hc). }
  destruct copying.
  { apply IH; [exact Hr| | |].
    - apply Hsnoc; [exact Hb|]. intros He.
      specialize (Hcopy eq_refl He). cbn [startsWithDot] in Hcopy. exact Hcopy.
    - intros Hrt. rewrite bufString_cons. apply HasPrefix_app_l. auto.
    - intros _. apply Hnext. }
  destruct (GoFilepath.isDot c && GoFilepath.atBoundary r) eqn:E1.
  { apply IH; [exact Hr|exact Hb|exact Hroot|discriminate]. }
  assert (Hsep : hasDotDot (GoFilepath.bufString (GoFilepath.addSep rooted buf))
                 = false
                 /\ endsWithDot (GoFilepath.bufString (GoFilepath.addSep rooted buf))
                    = false
                 /\ (rooted = true ->
                     GoStrings.HasPrefix
                       (GoFilepath.bufString (GoFilepath.addSep rooted buf)) "/"
                     = true)).
  { unfold GoFilepath.addSep, GoFilepath.sepNeeded.
    destruct ((rooted && negb (length buf =? 1)%nat)
              || (negb rooted && negb (length buf =? 0)%nat)) eqn:Ea.
    - rewrite bufString_cons, hasDotDot_app, endsWithDot_app, Hb.
      split; [|split].
      + change (GoFilepath.isDot "/") with false.
        cbn [hasDotDot startsWithDot endsWithDot orb andb].
        change (GoFilepath.isDot "/") with false.
        destruct (endsWithDot (GoFilepath.bufString buf)); reflexivity.
      + reflexivity.
      + intros Hrt. apply HasPrefix_app_l. auto.
    - split; [exact Hb|].
      destruct rooted; cbn [andb orb negb] in Ea.
      + rewrite orb_false_r in Ea. apply negb_false_iff, Nat.eqb_eq in Ea.
        destruct buf as [|x [|y buf]]; try discriminate.
        specialize (Hroot eq_refl). cbn in Hroot.
        rewrite andb_true_r in Hroot. apply Ascii.eqb_eq in Hroot. subst x.
        split; [reflexivity|]. intros _. reflexivity.
      + apply negb_false_iff, Nat.eqb_eq in Ea.
        destruct buf; [|discriminate]. split; [reflexivity|discriminate]. }
  destruct Hsep as (Hs1 & Hs2 & Hs3).
  apply IH; [exact Hr| | |].
  - apply Hsnoc; [exact Hs1|]. rewrite Hs2. discriminate.
  - intros Hrt. rewrite bufString_cons. apply HasPrefix_app_l. auto.
  - intros _. apply Hnext.
Qed.

Lemma finish_no_dotdot (buf : list ascii) :
  hasDotDot (GoFilepath.bufString buf) = false ->
  hasDotDot (GoFilepath.finish buf) = false.
Proof. destruct buf; [reflexivity|auto]. Qed.

Lemma Clean_no_dotdot (path : string) :
  hasDotDot path = false -> hasDotDot (GoFilepath.Clean path) = false.
Proof.
  intros H. destruct path as [|c r]; [reflexivity|].
  unfold GoFilepath.Clean.
  destruct (GoFilepath.isSep c) eqn:Es; apply finish_no_dotdot;
    rewrite clean_loop_plain by eauto using hasDotDot_tail;
    apply plain_loop_no_dotdot; eauto using hasDotDot_tail; try discriminate.
Qed.

Lemma hasDotDot_join (a b : string) :
  hasDotDot a = false -> hasDotDot b = false ->
  hasDotDot (a +:+ "/" +:+ b) = false.
Proof.
  intros Ha Hb. rewrite hasDotDot_app, Ha. rewrite app_cons, app_nil_l_str.
  cbn [hasDotDot startsWithDot]. change (GoFilepath.isDot "/") with false.
  rewrite Hb. cbn [andb orb]. apply andb_false_r.
Qed.

Lemma Join_no_dotdot (a b : string) :
  hasDotDot a = false -> hasDotDot b = false ->
  hasDotDot (GoFilepath.Join a b) = false.
Proof.
  intros Ha Hb. unfold GoFilepath.Join.
  destruct a as [|c a]; [destruct b; [reflexivity|apply Clean_no_dotdot, Hb]|].
  apply Clean_no_dotdot, hasDotDot_join; assumption.
Qed.

(** *** [Join] stays below its first argument *)

Lemma atBoundary_app (r s2 : string) :
  GoFilepath.atBoundary (r +:+ String "/" s2) = GoFilepath.atBoundary r.
Proof. destruct r; reflexivity. Qed.

(** Cleaning [s1/s2] is cleaning [s1] and going on with [s2]. *)
Lemma plain_loop_app (s1 s2 : string) :
  forall rooted copying buf,
    GoFilepath.plain_loop rooted copying buf (s1 +:+ String "/" s2)
    = GoFilepath.plain_loop rooted false
        (GoFilepath.plain_loop rooted copying buf s1) s2.
Proof.
  induction s1 as [|c r IH]; intros rooted copying buf; [reflexivity|].
  rewrite app_cons. cbn [GoFilepath.plain_loop]. rewrite atBoundary_app.
  destruct (GoFilepath.isSep c); [apply IH|].
  destruct copying; [apply IH|].
  destruct (GoFilepath.isDot c && GoFilepath.atBoundary r); apply IH.
Qed.

(** What the loop adds to the buffer: nothing, or bytes of which the
    first is a separator exactly when [addSep] asks for one. *)
Lemma plain_loop_extends (s : string) :
  forall rooted copying buf,
    exists ext,
      GoFilepath.plain_loop rooted copying buf s = ext ++ buf
      /\ (copying = false ->
          ext = []
          \/ exists ext' x,
              ext = ext' ++ [x]
              /\ (if GoFilepath.sepNeeded rooted buf then x = "/"%char
                  else GoFilepath.isSep x = false)).
Proof.
  induction s as [|c r IH]; intros rooted copying buf.
  { exists []. split; [reflexivity|]. intros _. left. reflexivity. }
  cbn [GoFilepath.plain_loop].
  destruct (GoFilepath.isSep c) eqn:Es.
  { destruct (IH rooted false buf) as (ext & He & Hx).
    exists ext. split; [exact He|]. intros _. apply Hx. reflexivity. }
  destruct copying.
  { destruct (IH rooted true (c :: buf)) as (ext & He & _).
    exists (ext ++ [c]). split; [|discriminate].
    rewrite He, <- app_assoc. reflexivity. }
  destruct (GoFilepath.isDot c && GoFilepath.atBoundary r).
  { destruct (IH rooted false buf) as (ext & He & Hx).
    exists ext. split; [exact He|]. intros _. apply Hx. reflexivity. }
  destruct (IH rooted true (c :: GoFilepath.addSep rooted buf)) as (ext & He & _).
  rewrite He. unfold GoFilepath.addSep.
  destruct (GoFilepath.sepNeeded rooted buf) eqn:En.
  - exists ((ext ++ [c]) ++ ["/"%char]). split.
    + rewrite <- !app_assoc. reflexivity.
    + intros _. right. exists (ext ++ [c]), "/"%char. split; reflexivity.
  - exists (ext ++ [c]). split.
    + rewrite <- app_assoc. reflexivity.
    + intros _. right. exists ext, c. split; [reflexivity|exact Es].
Qed.

Lemma finish_app (ext buf : list ascii) (x : ascii) :
  GoFilepath.finish ((ext ++ [x]) ++ buf)
  = GoFilepath.bufString buf +:+ String x (GoFilepath.bufString ext).
Proof.
  transitivity (GoFilepath.bufString ((ext ++ [x]) ++ buf)).
  - unfold GoFilepath.finish.
    destruct ((ext ++ [x]) ++ buf) eqn:E; [|reflexivity].
    apply app_eq_nil in E. destruct E as [E _].
    apply app_eq_nil in E. destruct E as [_ E]. discriminate.
  - rewrite !bufString_app. reflexivity.
Qed.

Lemma HasPrefix_app_both (a b c : string) :
  GoStrings.HasPrefix (a +:+ b +:+ c) (a +:+ b) = true.
Proof. rewrite <- str_app_assoc. apply HasPrefix_app. Qed.

Lemma rootedAt_refl (root : string) : rootedAt root root = true.
Proof. unfold rootedAt. rewrite String.eqb_refl. reflexivity. Qed.

Lemma rootedAt_below (root rest : string) :
  rootedAt root (root +:+ "/" +:+ rest) = true.
Proof.
  unfold rootedAt. rewrite HasPrefix_app_both.
  rewrite orb_true_r. reflexivity.
Qed.

Lemma finish_nonempty (l : list ascii) :
  l <> [] -> GoFilepath.finish l = GoFilepath.bufString l.
Proof. destruct l; [contradiction|reflexivity]. Qed.

Lemma rootedAt_root (rest : string) : rootedAt "/" ("/" +:+ rest) = true.
Proof.
  unfold rootedAt. rewrite (HasPrefix_app "/" rest), String.eqb_refl.
  cbn [andb]. rewrite orb_true_r. reflexivity.
Qed.

Lemma rootedAt_relative (x : ascii) (rest : string) :
  GoFilepath.isSep x = false -> rootedAt "." (String x rest) = true.
Proof.
  intros Hx. unfold rootedAt. cbn [GoStrings.HasPrefix].
  fold (GoFilepath.isSep x). rewrite Hx, String.eqb_refl.
  cbn [andb negb]. rewrite orb_true_r. reflexivity.
Qed.

(** A path joined onto a non-empty base stays at or below the base, as
    long as neither has two dots in a row. *)
Lemma Join_rooted (a b : string) :
  a <> "" -> hasDotDot a = false -> hasDotDot b = false ->
  rootedAt (GoFilepath.Clean a) (GoFilepath.Join a b) = true.
Proof.
  intros Hne Ha Hb. destruct a as [|c0 a']; [contradiction|].
  unfold GoFilepath.Join. rewrite app_cons.
  change ("/" +:+ b) with (String "/" b).
  pose proof (hasDotDot_tail _ _ Ha) as Ha'.
  assert (Hab : hasDotDot (a' +:+ String "/" b) = false).
  { apply (hasDotDot_join a' b Ha' Hb). }
  assert (Hab0 : hasDotDot (String c0 a' +:+ String "/" b) = false).
  { apply (hasDotDot_join (String c0 a') b Ha Hb). }
  unfold GoFilepath.Clean. destruct (GoFilepath.isSep c0) eqn:Es.
  - rewrite !clean_loop_plain by assumption. rewrite plain_loop_app.
    destruct (plain_loop_extends a' true false ["/"%char]) as (extB & HB & _).
    rewrite HB.
    destruct (plain_loop_extends b true false (extB ++ ["/"%char]))
      as (ext & HF & Hx).
    rewrite HF. destruct (Hx eq_refl) as [-> | (ext' & x & -> & Hsep)].
    + apply rootedAt_refl.
    + rewrite finish_app.
      rewrite finish_nonempty by (intros E; apply app_eq_nil in E; destruct E; discriminate).
      unfold GoFilepath.sepNeeded in Hsep. cbn [andb negb orb] in Hsep.
      rewrite orb_false_r in Hsep.
      destruct (length (extB ++ ["/"%char]) =? 1)%nat eqn:El; cbn [negb] in Hsep.
      * apply Nat.eqb_eq in El. rewrite List.length_app in El.
        cbn [length] in El.
        destruct extB; [|cbn [length] in El; lia].
        apply (rootedAt_root (String x (GoFilepath.bufString ext'))).
      * subst x. apply rootedAt_below.
  - rewrite clean_loop_plain by assumption.
    rewrite <- app_cons, clean_loop_plain by assumption.
    rewrite plain_loop_app.
    set (B := GoFilepath.plain_loop false false [] (String c0 a')).
    destruct (plain_loop_extends b false false B) as (ext & HF & Hx).
    rewrite HF. destruct (Hx eq_refl) as [-> | (ext' & x & -> & Hsep)].
    + apply rootedAt_refl.
    + rewrite finish_app.
      unfold GoFilepath.sepNeeded in Hsep. cbn [andb negb orb] in Hsep.
      destruct B as [|y B'] eqn:EB.
      * cbn [length Nat.eqb negb] in Hsep.
        apply (rootedAt_relative x (GoFilepath.bufString ext') Hsep).
      * cbn [length Nat.eqb negb] in Hsep. subst x.
        rewrite finish_nonempty by discriminate. apply rootedAt_below.
Qed.

(** *** [Join] on a base of any shape *)

(** Cleaning [s1/s2] is cleaning [s1] and going on with [s2], whatever
    [s1] is made of. *)
Lemma clean_loop_app (n : nat) :
  forall s1 s2 rooted copying buf dotdot,
    (String.length s1 <= n)%nat ->
    exists dotdot',
      GoFilepath.clean_loop rooted copying buf dotdot (s1 +:+ String "/" s2)
      = GoFilepath.clean_loop rooted false
          (GoFilepath.clean_loop rooted copying buf dotdot s1) dotdot' s2.
Proof.
  induction n as [|n IH]; intros s1 s2 rooted copying buf dotdot Hlen.
  { destruct s1; [|simpl in Hlen; lia]. exists dotdot. reflexivity. }
  destruct s1 as [|c r]; [exists dotdot; reflexivity|].
  assert (Hr : (String.length r <= n)%nat) by (cbn [String.length] in Hlen; lia).
  rewrite app_cons. cbn [GoFilepath.clean_loop]. rewrite atBoundary_app.
  destruct (GoFilepath.isSep c); [apply IH; exact Hr|].
  destruct copying; [apply IH; exact Hr|].
  destruct (GoFilepath.isDot c && GoFilepath.atBoundary r); [apply IH; exact Hr|].
  destruct r as [|c2 r2].
  - rewrite app_nil_l_str. change (GoFilepath.isDot "/") with false.
    rewrite andb_false_r. cbn [andb]. exists dotdot. reflexivity.
  - assert (Hr2 : (String.length r2 <= n)%nat)
      by (cbn [String.length] in Hr; lia).
    rewrite app_cons, atBoundary_app.
    destruct (GoFilepath.isDot c && GoFilepath.isDot c2 && GoFilepath.atBoundary r2).
    + destruct (dotdot <? length buf)%nat; [apply IH; exact Hr2|].
      destruct (negb rooted); apply IH; exact Hr2.
    + rewrite <- app_cons. apply IH; exact Hr.
Qed.

(** On a rooted path the buffer keeps the leading slash at its bottom:
    [..] never climbs above the root. *)
Lemma backtrack_loop_bottom (pre : list ascii) :
  forall last,
    exists pre',
      GoFilepath.backtrack_loop last (pre ++ ["/"%char]) 1 = pre' ++ ["/"%char].
Proof.
  induction pre as [|x pre IH]; intros last.
  - exists []. reflexivity.
  - cbn [app GoFilepath.backtrack_loop].
    destruct ((1 <? length (x :: pre ++ ["/"%char]))%nat
              && negb (GoFilepath.isSep last)).
    + apply IH.
    + exists (x :: pre). reflexivity.
Qed.

Lemma clean_loop_bottom (n : nat) :
  forall s copying pre,
    (String.length s <= n)%nat ->
    exists pre',
      GoFilepath.clean_loop true copying (pre ++ ["/"%char]) 1 s
      = pre' ++ ["/"%char].
Proof.
  induction n as [|n IH]; intros s copying pre Hlen.
  { destruct s; [|simpl in Hlen; lia]. exists pre. reflexivity. }
  destruct s as [|c r]; [exists pre; reflexivity|].
  assert (Hr : (String.length r <= n)%nat) by (cbn [String.length] in Hlen; lia).
  assert (Hadd : forall r', (String.length r' <= n)%nat ->
            exists pre',
              GoFilepath.clean_loop true true
                (c :: GoFilepath.addSep true (pre ++ ["/"%char])) 1 r'
              = pre' ++ ["/"%char]).
  { intros r' Hr'. unfold GoFilepath.addSep.
    destruct (GoFilepath.sepNeeded true (pre ++ ["/"%char])).
    - apply (IH r' true (c :: "/"%char :: pre) Hr').
    - apply (IH r' true (c :: pre) Hr'). }
  cbn [GoFilepath.clean_loop].
  destruct (GoFilepath.isSep c); [apply IH; exact Hr|].
  destruct copying; [apply (IH r true (c :: pre) Hr)|].
  destruct (GoFilepath.isDot c && GoFilepath.atBoundary r); [apply IH; exact Hr|].
  destruct r as [|c2 r2]; [apply Hadd; exact Hr|].
  assert (Hr2 : (String.length r2 <= n)%nat)
    by (cbn [String.length] in Hr; lia).
  destruct (GoFilepath.isDot c && GoFilepath.isDot c2 && GoFilepath.atBoundary r2);
    [|apply Hadd; exact Hr].
  destruct (1 <? length (pre ++ ["/"%char]))%nat eqn:El.
  - destruct pre as [|x pre]; [discriminate|].
    cbn [app GoFilepath.backtrack].
    destruct (backtrack_loop_bottom pre x) as [pre' ->].
    apply IH; exact Hr2.
  - cbn [negb]. apply IH; exact Hr2.
Qed.

(** On a path without two dots in a row, the loop adds no [..] to the
    buffer and takes none away. *)
Lemma plain_loop_keeps_dotdot (s : string) :
  forall rooted copying buf,
    hasDotDot s = false ->
    (rooted = true -> GoStrings.HasPrefix (GoFilepath.bufString buf) "/" = true) ->
    (copying = true -> endsWithDot (GoFilepath.bufString buf) = true ->
     startsWithDot s = false) ->
    hasDotDot (GoFilepath.bufString (GoFilepath.plain_loop rooted copying buf s))
    = hasDotDot (GoFilepath.bufString buf).
Proof.
  induction s as [|c r IH]; intros rooted copying buf H Hroot Hcopy;
    [reflexivity|].
  pose proof (hasDotDot_tail _ _ H) as Hr.
  cbn [GoFilepath.plain_loop].
  destruct (GoFilepath.isSep c) eqn:Es.
  { apply IH; [exact Hr|exact Hroot|discriminate]. }
  assert (Hsnoc : forall b,
             (endsWithDot (GoFilepath.bufString b) = true ->
              GoFilepath.isDot c = false) ->
             hasDotDot (GoFilepath.bufString (c :: b))
             = hasDotDot (GoFilepath.bufString b)).
  { intros b Hb2. rewrite bufString_cons, hasDotDot_app.
    cbn [hasDotDot startsWithDot orb andb].
    rewrite andb_false_r. cbn [orb]. rewrite orb_false_r.
    destruct (endsWithDot (GoFilepath.bufString b));
      [rewrite (Hb2 eq_refl)|]; apply orb_false_r. }
  assert (Hnext : forall b,
             endsWithDot (GoFilepath.bufString (c :: b)) = true ->
             startsWithDot r = false).
  { intros b. rewrite bufString_cons, endsWithDot_app. cbn [endsWithDot].
    intros Hc. exact (hasDotDot_head _ _ H Hc). }
  assert (Hkeep : forall b,
             GoStrings.HasPrefix (GoFilepath.bufString b) "/" = true ->
             GoStrings.HasPrefix (GoFilepath.bufString (c :: b)) "/" = true).
  { intros b Hb. rewrite bufString_cons. apply HasPrefix_app_l. exact Hb. }
  destruct copying.
  { rewrite IH; [| exact Hr | | ].
    - apply Hsnoc. intros He.
      specialize (Hcopy eq_refl He). cbn [startsWithDot] in Hcopy. exact Hcopy.
    - intros Hrt. apply Hkeep. auto.
    - intros _. apply Hnext. }
  destruct (GoFilepath.isDot c && GoFilepath.atBoundary r) eqn:E1.
  { apply IH; [exact Hr|exact Hroot|discriminate]. }
  assert (Hsep : hasDotDot (GoFilepath.bufString (GoFilepath.addSep rooted buf))
                 = hasDotDot (GoFilepath.bufString buf)
                 /\ endsWithDot (GoFilepath.bufString (GoFilepath.addSep rooted buf))
                    = false
                 /\ (rooted = true ->
                     GoStrings.HasPrefix
                       (GoFilepath.bufString (GoFilepath.addSep rooted buf)) "/"
                     = true)).
  { unfold GoFilepath.addSep, GoFilepath.sepNeeded.
    destruct ((rooted && negb (length buf =? 1)%nat)
              || (negb rooted && negb (length buf =? 0)%nat)) eqn:Ea.
    - rewrite bufString_cons, hasDotDot_app, endsWithDot_app.
      split; [|split].
      + change (GoFilepath.isDot "/") with false.
        cbn [hasDotDot startsWithDot endsWithDot orb andb].
        change (GoFilepath.isDot "/") with false.
        cbn [andb orb]. rewrite andb_false_r, !orb_false_r. reflexivity.
      + reflexivity.
      + intros Hrt. apply HasPrefix_app_l. auto.
    - split; [reflexivity|].
      destruct rooted; cbn [andb orb negb] in Ea.
      + rewrite orb_false_r in Ea. apply negb_false_iff, Nat.eqb_eq in Ea.
        destruct buf as [|x [|y buf]]; try discriminate.
        specialize (Hroot eq_refl). cbn in Hroot.
        rewrite andb_true_r in Hroot. apply Ascii.eqb_eq in Hroot. subst x.
        split; [reflexivity|]. intros _. reflexivity.
      + apply negb_false_iff, Nat.eqb_eq in Ea.
        destruct buf; [|discriminate]. split; [reflexivity|discriminate]. }
  destruct Hsep as (Hs1 & Hs2 & Hs3).
  rewrite IH; [| exact Hr | | ].
  - rewrite Hsnoc; [exact Hs1|]. rewrite Hs2. discriminate.
  - intros Hrt. apply Hkeep. auto.
  - intros _. apply Hnext.
Qed.

Lemma bottom_slash_prefix (pre : list ascii) :
  GoStrings.HasPrefix (GoFilepath.bufString (pre ++ ["/"%char])) "/" = true.
Proof. rewrite bufString_app. apply (HasPrefix_app "/"). Qed.

Lemma hasDotDot_finish (buf : list ascii) :
  hasDotDot (GoFilepath.finish buf) = hasDotDot (GoFilepath.bufString buf).
Proof. destruct buf; reflexivity. Qed.

(** [Join a b], for a non-empty [a] and a [b] without two dots in a
    row, is what the loop makes of [b] on the buffer that [Clean a]
    ends with. *)
Lemma Join_shape (a b : string) :
  a <> "" -> hasDotDot b = false ->
  exists rooted B,
    GoFilepath.Clean a = GoFilepath.finish B
    /\ GoFilepath.Join a b
       = GoFilepath.finish (GoFilepath.plain_loop rooted false B b)
    /\ (rooted = true -> exists pre, B = pre ++ ["/"%char]).
Proof.
  intros Hne Hb. destruct a as [|c0 a']; [contradiction|].
  unfold GoFilepath.Join. rewrite app_cons.
  change ("/" +:+ b) with (String "/" b).
  unfold GoFilepath.Clean. destruct (GoFilepath.isSep c0) eqn:Es.
  - exists true, (GoFilepath.clean_loop true false ["/"%char] 1 a').
    split; [reflexivity|]. split.
    + destruct (clean_loop_app (String.length a') a' b true false ["/"%char] 1
                  (le_n _)) as [dd ->].
      rewrite clean_loop_plain by exact Hb. reflexivity.
    + intros _. apply (clean_loop_bottom (String.length a') a' false [] (le_n _)).
  - exists false, (GoFilepath.clean_loop false false [] 0 (String c0 a')).
    split; [reflexivity|]. split; [|discriminate].
    rewrite <- app_cons.
    destruct (clean_loop_app (String.length (String c0 a')) (String c0 a') b
                false false [] 0 (le_n _)) as [dd ->].
    rewrite clean_loop_plain by exact Hb. reflexivity.
Qed.

(** A path without two dots in a row, joined onto a non-empty base of
    any shape, is the cleaned base or lies below it. *)
Lemma Join_below_base (a b : string) :
  a <> "" -> hasDotDot b = false ->
  rootedAt (GoFilepath.Clean a) (GoFilepath.Join a b) = true.
Proof.
  intros Hne Hb.
  destruct (Join_shape a b Hne Hb) as (rooted & B & -> & -> & Hbot).
  destruct (plain_loop_extends b rooted false B) as (ext & HF & Hx).
  rewrite HF. destruct (Hx eq_refl) as [-> | (ext' & x & -> & Hsep)];
    [apply rootedAt_refl|].
  rewrite finish_app. unfold GoFilepath.sepNeeded in Hsep.
  destruct rooted; cbn [andb negb orb] in Hsep.
  - destruct (Hbot eq_refl) as [pre ->]. rewrite orb_false_r in Hsep.
    destruct pre as [|y pre].
    + cbn [app length Nat.eqb negb] in Hsep.
      apply (rootedAt_root (String x (GoFilepath.bufString ext'))).
    + rewrite finish_nonempty by discriminate.
      replace (length ((y :: pre) ++ ["/"%char]) =? 1)%nat with false in Hsep
        by (symmetry; apply Nat.eqb_neq; rewrite List.length_app;
            cbn [length]; lia).
      cbn [negb] in Hsep. subst x. apply rootedAt_below.
  - destruct B as [|y B'].
    + cbn [length Nat.eqb negb] in Hsep.
      apply (rootedAt_relative x (GoFilepath.bufString ext') Hsep).
    + cbn [length Nat.eqb negb] in Hsep. subst x.
      rewrite finish_nonempty by discriminate. apply rootedAt_below.
Qed.

(** [Join] has two dots in a row in its result exactly when the cleaned
    base has them: a path without [..] brings none. *)
Lemma Join_dotdot (a b : string) :
  hasDotDot b = false ->
  hasDotDot (GoFilepath.Join a b) = hasDotDot (GoFilepath.Clean a).
Proof.
  intros Hb. destruct a as [|c0 a'].
  - unfold GoFilepath.Join. destruct b; [reflexivity|].
    rewrite Clean_no_dotdot by exact Hb. reflexivity.
  - destruct (Join_shape (String c0 a') b ltac:(discriminate) Hb)
      as (rooted & B & -> & -> & Hbot).
    rewrite !hasDotDot_finish. apply plain_loop_keeps_dotdot.
    + exact Hb.
    + intros Hr. destruct (Hbot Hr) as [pre ->]. apply bottom_slash_prefix.
    + discriminate.
Qed.

(** *** Writing the URL adds no [..] *)

Lemma upperhex_not_dot (n : nat) : GoFilepath.isDot (GoURL.upperhex n) = false.
Proof. do 17 (destruct n as [|n]; [reflexivity|]). reflexivity. Qed.

(** A dot is never escaped, in any part of a URL. *)
Lemma shouldEscape_not_dot (c : ascii) (mode : GoURL.encoding) :
  GoURL.shouldEscape c mode = true -> GoFilepath.isDot c = false.
Proof.
  intros H. destruct (GoFilepath.isDot c) eqn:E; [|reflexivity].
  apply Ascii.eqb_eq in E. subst c. destruct mode; discriminate.
Qed.

Lemma escape_dots (s : string) (mode : GoURL.encoding) :
  hasDotDot s = false ->
  hasDotDot (GoURL.escape s mode) = false
  /\ startsWithDot (GoURL.escape s mode) = startsWithDot s.
Proof.
  induction s as [|c r IH]; intros H; [split; reflexivity|].
  destruct (IH (hasDotDot_tail _ _ H)) as [IH1 IH2].
  cbn [GoURL.escape]. destruct (GoURL.shouldEscape c mode) eqn:Ec.
  - pose proof (shouldEscape_not_dot c mode Ec) as Hd.
    assert (Hhex : hasDotDot
                     (String "%" (String (GoURL.upperhex (nat_of_ascii c / 16))
                        (String (GoURL.upperhex (nat_of_ascii c mod 16))
                           (GoURL.escape r mode)))) = false
                   /\ startsWithDot
                        (String "%" (String (GoURL.upperhex (nat_of_ascii c / 16))
                           (String (GoURL.upperhex (nat_of_ascii c mod 16))
                              (GoURL.escape r mode))))
                      = startsWithDot (String c r)).
    { cbn [hasDotDot startsWithDot]. rewrite !upperhex_not_dot, IH1, Hd.
      split; reflexivity. }
    destruct mode; try exact Hhex.
    destruct (Ascii.eqb c " "); [|exact Hhex].
    cbn [hasDotDot startsWithDot]. rewrite IH1, Hd. split; reflexivity.
  - cbn [hasDotDot startsWithDot]. rewrite IH1, IH2, orb_false_r.
    split; [|reflexivity].
    destruct (GoFilepath.isDot c) eqn:Ed; [|reflexivity].
    exact (hasDotDot_head _ _ H Ed).
Qed.

Lemma startsWithDot_no_slash (s : string) :
  startsWithDot s = true -> GoStrings.HasPrefix s "/" = false.
Proof.
  destruct s as [|c r]; [discriminate|].
  cbn [startsWithDot GoStrings.HasPrefix]. intros Hd.
  apply Ascii.eqb_eq in Hd. subst c. reflexivity.
Qed.

Lemma EscapedPath_dots (u : URL) :
  hasDotDot (UPath u) = false -> hasDotDot (RawPath u) = false ->
  hasDotDot (GoURL.EscapedPath u) = false.
Proof.
  intros H Hr. unfold GoURL.EscapedPath.
  destruct (_ && _); [exact Hr|].
  destruct (String.eqb (UPath u) "*"); [reflexivity|].
  apply escape_dots, H.
Qed.

Lemma EscapedFragment_dots (u : URL) :
  hasDotDot (Fragment u) = false -> hasDotDot (RawFragment u) = false ->
  hasDotDot (GoURL.EscapedFragment u) = false.
Proof.
  intros H Hr. unfold GoURL.EscapedFragment.
  destruct (_ && _); [exact Hr|]. apply escape_dots, H.
Qed.

Lemma hasDotDot_snoc_char (a : string) (c : ascii) (b : string) :
  GoFilepath.isDot c = false ->
  hasDotDot (a +:+ String c b) = hasDotDot a || hasDotDot b.
Proof.
  intros Hc. rewrite hasDotDot_app. cbn [hasDotDot startsWithDot].
  rewrite Hc. cbn [andb orb]. rewrite andb_false_r, orb_false_r. reflexivity.
Qed.

Lemma endsWithDot_snoc_char (a : string) (c : ascii) :
  endsWithDot (a +:+ String c "") = GoFilepath.isDot c.
Proof. rewrite endsWithDot_app. reflexivity. Qed.

(** A string that does not end in a dot can be followed by anything
    free of [..]; one that may end in a dot, by what does not start with
    one. *)
Lemma hasDotDot_app_safe (a b : string) :
  hasDotDot a = false -> hasDotDot b = false ->
  endsWithDot a && startsWithDot b = false ->
  hasDotDot (a +:+ b) = false.
Proof. intros Ha Hb Hab. rewrite hasDotDot_app, Ha, Hb, Hab. reflexivity. Qed.

Lemma app_nil_r_str (a : string) : a +:+ "" = a.
Proof. induction a as [|c a IH]; [reflexivity|]. rewrite app_cons, IH. reflexivity. Qed.

Lemma UserinfoString_dots (ui : Userinfo) :
  hasDotDot (username ui) = false ->
  hasDotDot (if passwordSet ui then password ui else "") = false ->
  hasDotDot (GoURL.UserinfoString ui) = false.
Proof.
  intros Hn Hp. unfold GoURL.UserinfoString.
  destruct (escape_dots _ GoURL.encodeUserPassword Hn) as [Hn1 _].
  destruct (passwordSet ui); [|exact Hn1].
  change (":" +:+ GoURL.escape (password ui) GoURL.encodeUserPassword)
    with (String ":" (GoURL.escape (password ui) GoURL.encodeUserPassword)).
  rewrite hasDotDot_snoc_char by reflexivity.
  destruct (escape_dots _ GoURL.encodeUserPassword Hp) as [Hp1 _].
  rewrite Hn1, Hp1. reflexivity.
Qed.

(** The authority has no [..] and ends in a dot only when a host is
    written. *)
Lemma authority_dots (u : URL) :
  hasDotDot (match User u with Some ui => username ui | None => "" end) = false ->
  hasDotDot (match User u with
             | Some ui => if passwordSet ui then password ui else ""
             | None => ""
             end) = false ->
  hasDotDot (Host u) = false ->
  hasDotDot (GoURL.authority u) = false
  /\ (endsWithDot (GoURL.authority u) = true -> String.eqb (Host u) "" = false).
Proof.
  intros Hn Hp Hh. unfold GoURL.authority.
  destruct (_ || _); [|split; [reflexivity|discriminate]].
  destruct (_ && _); [split; [reflexivity|discriminate]|].
  set (pfx := if negb (String.eqb (Host u) "") || negb (String.eqb (UPath u) "")
                 || negb (GoURL.isNil (User u))
              then "//" else "").
  assert (Hpfx : hasDotDot pfx = false /\ endsWithDot pfx = false).
  { subst pfx. destruct (_ || _); split; reflexivity. }
  set (usr := match User u with
              | Some ui => GoURL.UserinfoString ui +:+ "@"
              | None => ""
              end).
  assert (Husr : hasDotDot usr = false /\ endsWithDot usr = false).
  { subst usr. destruct (User u) as [ui|]; [|split; reflexivity].
    rewrite hasDotDot_snoc_char, endsWithDot_snoc_char by reflexivity.
    rewrite (UserinfoString_dots ui Hn Hp). split; reflexivity. }
  set (hst := if negb (String.eqb (Host u) "")
              then GoURL.escape (Host u) GoURL.encodeHost else "").
  assert (Hhst : hasDotDot hst = false).
  { subst hst. destruct (negb _); [apply escape_dots, Hh|reflexivity]. }
  destruct Hpfx as [Hp1 Hp2]. destruct Husr as [Hu1 Hu2].
  assert (Huh : hasDotDot (usr +:+ hst) = false).
  { apply hasDotDot_app_safe; try assumption. rewrite Hu2. reflexivity. }
  split.
  - apply hasDotDot_app_safe; try assumption. rewrite Hp2. reflexivity.
  - rewrite !endsWithDot_app. subst hst.
    destruct (String.eqb (Host u) ""); [|reflexivity]. cbn [negb].
    destruct usr; [rewrite Hp2|rewrite Hu2]; discriminate.
Qed.

Lemma noDotsBesidePath_spec (u : URL) :
  noDotsBesidePath u = true ->
  Forall (fun s => hasDotDot s = false) (componentsBesidePath u).
Proof.
  unfold noDotsBesidePath. intros H.
  apply forallb_forall with (x := Scheme u) in H as H0; [|left; reflexivity].
  apply List.Forall_forall. intros s Hs.
  rewrite forallb_forall in H. specialize (H s Hs).
  apply negb_true_iff in H. rewrite Contains_hasDotDot in H. exact H.
Qed.

(** A URL of which no component has two dots in a row is written
    without two dots in a row. *)
Lemma String_no_dotdot (u : URL) :
  noDotsBesidePath u = true ->
  hasDotDot (UPath u) = false ->
  hasDotDot (GoURL.String u) = false.
Proof.
  intros Hall Hp. apply noDotsBesidePath_spec in Hall.
  unfold componentsBesidePath in Hall.
  repeat match goal with
         | H : Forall _ (_ :: _) |- _ =>
             let H1 := fresh "Hc" in
             apply List.Forall_cons_iff in H; destruct H as [H1 H]
         end.
  clear Hall.
  rename Hc into Hs, Hc0 into Ho, Hc1 into Hun, Hc2 into Hpw, Hc3 into Hh,
         Hc4 into Hrp, Hc5 into Hq, Hc6 into Hf, Hc7 into Hrf.
  pose proof (EscapedPath_dots u Hp Hrp) as Hp1.
  pose proof (EscapedFragment_dots u Hf Hrf) as Hf1.
  destruct (authority_dots u Hun Hpw Hh) as [Ha1 Ha2].
  unfold GoURL.String.
  set (path := GoURL.EscapedPath u) in *.
  set (buf1 := if negb (String.eqb (Scheme u) "") then Scheme u +:+ ":" else "").
  assert (H1 : hasDotDot buf1 = false /\ endsWithDot buf1 = false).
  { subst buf1. destruct (negb _); [|split; reflexivity].
    rewrite hasDotDot_snoc_char, Hs, endsWithDot_snoc_char by reflexivity.
    split; reflexivity. }
  destruct H1 as [H1a H1b].
  set (buf2 := buf1 +:+ GoURL.authority u).
  assert (H2 : hasDotDot buf2 = false
               /\ (endsWithDot buf2 = true -> String.eqb (Host u) "" = false)).
  { subst buf2. split.
    - apply hasDotDot_app_safe; try assumption. rewrite H1b. reflexivity.
    - rewrite endsWithDot_app.
      destruct (GoURL.authority u) eqn:Ea; [congruence|exact Ha2]. }
  destruct H2 as [H2a H2b].
  set (buf3 := if negb (String.eqb path "") && negb (GoStrings.HasPrefix path "/")
                  && negb (String.eqb (Host u) "")
               then buf2 +:+ "/" else buf2).
  assert (H3 : hasDotDot buf3 = false
               /\ endsWithDot buf3 && startsWithDot path = false).
  { subst buf3.
    destruct (String.eqb path "") eqn:Ep0; cbn [negb andb].
    { apply String.eqb_eq in Ep0. rewrite Ep0. split; [exact H2a|].
      apply andb_false_r. }
    destruct (GoStrings.HasPrefix path "/") eqn:Ep1; cbn [negb andb].
    { split; [exact H2a|].
      destruct (startsWithDot path) eqn:Esd; [|apply andb_false_r].
      apply startsWithDot_no_slash in Esd. congruence. }
    destruct (String.eqb (Host u) "") eqn:Eh; cbn [negb].
    { split; [exact H2a|].
      destruct (endsWithDot buf2) eqn:Ee; [|reflexivity].
      specialize (H2b eq_refl). congruence. }
    rewrite hasDotDot_snoc_char, H2a, endsWithDot_snoc_char by reflexivity.
    split; reflexivity. }
  destruct H3 as [H3a H3b].
  set (buf4 := if String.eqb buf3 ""
                  && GoStrings.ContainsByte (GoURL.firstSegment path) ":"
               then buf3 +:+ "./" else buf3).
  assert (H4 : hasDotDot buf4 = false
               /\ endsWithDot buf4 && startsWithDot path = false).
  { subst buf4.
    destruct (String.eqb buf3 ""
              && GoStrings.ContainsByte (GoURL.firstSegment path) ":") eqn:E;
      [|split; assumption].
    apply andb_true_iff in E. destruct E as [E _].
    apply String.eqb_eq in E. rewrite E. split; reflexivity. }
  destruct H4 as [H4a H4b].
  assert (H5 : hasDotDot (buf4 +:+ path) = false).
  { apply hasDotDot_app_safe; assumption. }
  set (buf5 := if negb (String.eqb (Opaque u) "") then buf1 +:+ Opaque u
               else buf4 +:+ path).
  assert (H6 : hasDotDot buf5 = false).
  { subst buf5. destruct (negb (String.eqb (Opaque u) "")); [|exact H5].
    apply hasDotDot_app_safe; try assumption. rewrite H1b. reflexivity. }
  set (buf6 := if ForceQuery u || negb (String.eqb (RawQuery u) "")
               then buf5 +:+ "?" +:+ RawQuery u else buf5).
  assert (H7 : hasDotDot buf6 = false).
  { subst buf6. destruct (_ || _); [|exact H6].
    change ("?" +:+ RawQuery u) with (String "?" (RawQuery u)).
    rewrite hasDotDot_snoc_char by reflexivity. rewrite H6, Hq. reflexivity. }
  destruct (negb (String.eqb (Fragment u) "")); [|exact H7].
  change ("#" +:+ GoURL.EscapedFragment u)
    with (String "#" (GoURL.EscapedFragment u)).
  rewrite hasDotDot_snoc_char by reflexivity. rewrite H7, Hf1. reflexivity.
Qed.

(** C1 (as amended).  For every path [p], with any number of [..]
    segments in it:
    - [resolvePath] of the Local and of the NFS adapter has two dots in
      a row in its result exactly when the cleaned base path (the
      [BasePath], the mount point) has them, so never when the base path
      is free of them; and for every non-empty base path the result is
      the cleaned base path or a path below it;
    - [resolveURL] of the WebDAV adapter returns the base URL with its
      path replaced by a path [q] that has two dots in a row exactly
      when the cleaned base path has them and that, for a non-empty base
      path, is the cleaned base path or below it; the text of that URL
      has no two dots in a row when neither the cleaned base path nor
      any other component of the base URL has them. *)
Theorem resolvers_stay_below_base (p : string) :
  (forall c : Local.Client,
      GoStrings.Contains (Local.resolvePath c p) ".."
      = GoStrings.Contains (GoFilepath.Clean (Local.basePath c)) ".."
      /\ (GoStrings.Contains (Local.basePath c) ".." = false ->
          GoStrings.Contains (Local.resolvePath c p) ".." = false)
      /\ (Local.basePath c <> "" ->
          rootedAt (GoFilepath.Clean (Local.basePath c)) (Local.resolvePath c p)
          = true))
  /\ (forall c : NFS.Client,
         GoStrings.Contains (NFS.resolvePath c p) ".."
         = GoStrings.Contains (GoFilepath.Clean (NFS.mountPoint c)) ".."
         /\ (GoStrings.Contains (NFS.mountPoint c) ".." = false ->
             GoStrings.Contains (NFS.resolvePath c p) ".." = false)
         /\ (NFS.mountPoint c <> "" ->
             rootedAt (GoFilepath.Clean (NFS.mountPoint c)) (NFS.resolvePath c p)
             = true))
  /\ (forall u : URL,
         exists q,
           WebDAV.resolveURLFrom u p = GoURL.String (set_UPath u q)
           /\ GoStrings.Contains q ".."
              = GoStrings.Contains (GoFilepath.Clean (UPath u)) ".."
           /\ (UPath u <> "" ->
               rootedAt (GoFilepath.Clean (UPath u)) q = true)
           /\ (noDotsBesidePath u = true ->
               GoStrings.Contains (GoFilepath.Clean (UPath u)) ".." = false ->
               GoStrings.Contains (WebDAV.resolveURLFrom u p) ".." = false)).
Proof.
  split; [|split].
  - intros c. rewrite !Contains_hasDotDot. unfold Local.resolvePath.
    pose proof (Join_dotdot (Local.basePath c) _ (cleaned_no_dotdot p)) as Hj.
    split; [exact Hj|]. split.
    + intros Hb. rewrite Hj. apply Clean_no_dotdot, Hb.
    + intros Hne. apply Join_below_base; [exact Hne|apply cleaned_no_dotdot].
  - intros c. rewrite !Contains_hasDotDot. unfold NFS.resolvePath.
    pose proof (Join_dotdot (NFS.mountPoint c) _ (cleaned_no_dotdot p)) as Hj.
    split; [exact Hj|]. split.
    + intros Hb. rewrite Hj. apply Clean_no_dotdot, Hb.
    + intros Hne. apply Join_below_base; [exact Hne|apply cleaned_no_dotdot].
  - intros u. unfold WebDAV.resolveURLFrom.
    pose proof (cleaned_no_dotdot p) as Hcp.
    set (cp := if GoStrings.Contains (GoFilepath.Clean p) ".."
               then GoStrings.ReplaceAll (GoFilepath.Clean p) ".." ""
               else GoFilepath.Clean p) in *.
    pose proof (Join_dotdot (UPath u) cp Hcp) as Hj.
    exists (GoFilepath.Join (UPath u) cp). split; [reflexivity|].
    rewrite !Contains_hasDotDot.
    split; [exact Hj|]. split.
    + intros Hne. apply Join_below_base; [exact Hne|exact Hcp].
    + intros Hall Hc. apply String_no_dotdot.
      * unfold noDotsBesidePath, componentsBesidePath in *. exact Hall.
      * cbn [UPath set_UPath]. rewrite Hj. exact Hc.
Qed.

(** The base path /data with the path of the spec's scenario, and the
    WebDAV base URL of the repository's tests. *)
Lemma resolvers_stay_below_base_witness :
  GoStrings.Contains "/data" ".." = false
  /\ "/data" <> ""
  /\ GoStrings.Contains
       (Local.resolvePath (Local.NewLocalClient {| Local.BasePath := "/data" |})
          "../../../etc/passwd") ".." = false
  /\ rootedAt (GoFilepath.Clean "/data")
       (Local.resolvePath (Local.NewLocalClient {| Local.BasePath := "/data" |})
          "../../../etc/passwd") = true
  /\ noDotsBesidePath davBase = true
  /\ GoStrings.Contains (GoFilepath.Clean (UPath davBase)) ".." = false
  /\ GoStrings.Contains (WebDAV.resolveURLFrom davBase "../../../etc/passwd") ".."
     = false.
Proof.
  split; [reflexivity|]. split; [discriminate|].
  destruct (resolvers_stay_below_base "../../../etc/passwd") as (HL & _ & HW).
  destruct (HL (Local.NewLocalClient {| Local.BasePath := "/data" |}))
    as (_ & H1 & H2).
  split; [exact (H1 eq_refl)|]. split; [apply H2; discriminate|].
  split; [reflexivity|]. split; [reflexivity|].
  destruct (HW davBase) as (q & _ & _ & _ & H3).
  exact (H3 eq_refl eq_refl).
Defined.

(** C1, as stated, fails.  The resolver cleans the configured base but
    removes nothing from it, so two dots in a row inside a name of the
    base path (or in the host of a base URL) are in every result; and
    with the empty base path, the factory's default, a relative path
    climbs to the root, which is not below the base. *)
Lemma resolver_result_with_dots :
  GoStrings.Contains
    (Local.resolvePath (Local.NewLocalClient {| Local.BasePath := "/srv/my..files" |})
       "a.txt") ".." = true
  /\ Local.resolvePath (Local.NewLocalClient {| Local.BasePath := "/srv/my..files" |})
       "a.txt" = "/srv/my..files/a.txt"
  /\ Local.resolvePath (Local.NewLocalClient {| Local.BasePath := "" |})
       "../etc/passwd" = "/etc/passwd"
  /\ rootedAt (GoFilepath.Clean "") "/etc/passwd" = false
  /\ WebDAV.resolveURLFrom (set_UPath davBase "/dav/my..files") "a.txt"
     = "http://127.0.0.1:8080/dav/my..files/a.txt".
Proof. repeat split; vm_compute; reflexivity. Qed.

(** ** Witnesses and counterexamples *)



(** C3: on the listing of the repository's own test, the parser returns
    three entries, the collection's own record among them, where the
    test asserts two. *)
Theorem webdav_list_keeps_self_record :
  result (run (play (httpServer 207 davListing))
            (WebDAV.ListDirectory background davClient "/") tt)
  = Some ([ {| Name := "ebdav"; Size := 0; ModTime := 0; IsDir := true;
               Mode := perm_0644; Path := "webdav/" |};
            {| Name := "ile1.txt"; Size := 512; ModTime := 0; IsDir := false;
               Mode := perm_0644; Path := "webdav/file1.txt" |};
            {| Name := "ubdir"; Size := 0; ModTime := 0; IsDir := true;
               Mode := perm_0644; Path := "webdav/subdir/" |} ],
          None, davClient).
Proof. vm_compute. reflexivity. Qed.

(** C3: with full URLs as resource identifiers, the collection's own
    record written with a trailing slash is kept as well. *)
Theorem webdav_list_keeps_self_with_slash :
  result (run (play (httpServer 207 davListingAbsolute))
            (WebDAV.ListDirectory background davClient "/") tt)
  = Some ([ {| Name := "webdav"; Size := 0; ModTime := 0; IsDir := true;
               Mode := perm_0644; Path := "" |};
            {| Name := "file1.txt"; Size := 512; ModTime := 0; IsDir := false;
               Mode := perm_0644; Path := "file1.txt" |} ],
          None, davClient).
Proof. vm_compute. reflexivity. Qed.



(** A PROPFIND answered 207. *)
Lemma webdav_connect_200_or_207_witness :
  WebDAV.baseURL davClient = Some davBase
  /\ exists e c' w',
      run (play (httpServer 207 "")) (WebDAV.Connect background davClient) tt
      = Done (e, c') w'
      /\ (e = None <->
          exists w1 resp w2,
            play (httpServer 207 "") _
              (http_NewRequestWithContext background "PROPFIND"
                 (GoURL.String davBase)) tt = (None, w1)
            /\ play (httpServer 207 "") _
                 (http_Do (connectRequest background davClient davBase)) w1
               = (Ok resp, w2)
            /\ (StatusCode resp = 200 \/ StatusCode resp = 207))
      /\ (e = None -> c' = WebDAV.set_connected true davClient)
      /\ (e <> None -> c' = davClient)
      /\ (requests (calls (play (httpServer 207 ""))
                      (WebDAV.Connect background davClient) tt) = []
          \/ requests (calls (play (httpServer 207 ""))
                         (WebDAV.Connect background davClient) tt)
             = [connectRequest background davClient davBase])
      /\ rq_Method (connectRequest background davClient davBase) = "PROPFIND"
      /\ rq_URL (connectRequest background davClient davBase)
         = GoURL.String davBase
      /\ rq_Header (connectRequest background davClient davBase)
         = [("Depth", "0")].
Proof.
  split; [reflexivity|].
  exact (webdav_connect_200_or_207 unit (play (httpServer 207 "")) background
           davClient davBase tt eq_refl).
Defined.

(** C5, as stated, fails: the 2xx status 204 is a connect failure. *)
Lemma webdav_connect_rejects_204 :
  run (play (httpServer 204 ""))
    (WebDAV.Connect background (WebDAV.set_connected false davClient)) tt
  = Done (errorf "WebDAV server returned status 204",
          WebDAV.set_connected false davClient) tt.
Proof. vm_compute. reflexivity. Qed.

(** The FTP path of the open question of the spec. *)
Example ftp_resolvePath_keeps_traversal :
  FTP.resolvePath ftpClient "../../etc/passwd" = "/data/../../etc/passwd".
Proof. reflexivity. Qed.

Lemma factory_unsupported_protocol_witness :
  ~ In (Factory.Protocol bogusDescriptor) ["smb"; "ftp"; "nfs"; "webdav"; "local"]
  /\ Factory.CreateClient true bogusDescriptor
     = Ret (None, errorf "unsupported protocol: bogus").
Proof.
  assert (Hn : ~ In (Factory.Protocol bogusDescriptor)
                 ["smb"; "ftp"; "nfs"; "webdav"; "local"]).
  { simpl. intros [H|[H|[H|[H|[H|[]]]]]]; discriminate. }
  split; [exact Hn|].
  exact (proj1 (factory_unsupported_protocol true bogusDescriptor Hn)).
Defined.

(** An SMB client with all three handles, every teardown step succeeding. *)
Lemma disconnect_twice_witness :
  In SMB.adapter adapters
  /\ run (play quiet) (a_Disconnect SMB.adapter background smbClient) tt
     = Done (None, SMB.NewSMBClient (SMB.config smbClient)) tt
  /\ run (play quiet)
       (a_Disconnect SMB.adapter background
          (SMB.NewSMBClient (SMB.config smbClient))) tt
     = Done (None, SMB.NewSMBClient (SMB.config smbClient)) tt
  /\ calls (play quiet)
       (a_Disconnect SMB.adapter background
          (SMB.NewSMBClient (SMB.config smbClient))) tt = []
  /\ run (play quiet)
       (a_IsConnected SMB.adapter (SMB.NewSMBClient (SMB.config smbClient))) tt
     = Done false tt.
Proof.
  assert (HA : In SMB.adapter adapters) by (right; left; reflexivity).
  split; [exact HA|]. split; [reflexivity|].
  refine (disconnect_twice SMB.adapter unit (play quiet) background smbClient tt
            None (SMB.NewSMBClient (SMB.config smbClient)) tt HA eq_refl _).
  intros _. reflexivity.
Defined.

(** C8, as stated, fails for NFS: while the mount point is busy, the
    first [Disconnect] fails and leaves the client mounted and connected,
    and the second fails in the same way. *)
Lemma nfs_disconnect_twice_fails :
  result (run (play busyMount)
            (r0 <- NFS.Connect background nfsClient;;
             r1 <- NFS.Disconnect background (snd r0);;
             r2 <- NFS.Disconnect background (snd r1);;
             Ret (fst r0, fst r1, fst r2, snd r2)) tt)
  = Some (None,
          wrapf "failed to unmount NFS share from /mnt/nfs"
            (External "device or resource busy" false),
          wrapf "failed to unmount NFS share from /mnt/nfs"
            (External "device or resource busy" false),
          nfsMounted).
Proof. vm_compute. reflexivity. Qed.

(** A listing with an entry of 2^64 - 1 bytes. *)
Lemma ftp_list_sizes_clamped_witness :
  (forall conn p w0 entries w1,
      play (ftpServer hugeListing) _ (ftp_List conn p) w0 = (Ok entries, w1) ->
      Forall (fun entry => 0 <= ftp_Size entry < 2 ^ 64) entries)
  /\ run (play (ftpServer hugeListing))
       (FTP.ListDirectory background ftpClient "docs") tt
     = Done ([ {| Name := "small.txt"; Size := 5; ModTime := 0; IsDir := false;
                  Mode := perm_0644; Path := "docs/small.txt" |};
               {| Name := "huge.bin"; Size := 2 ^ 63 - 1; ModTime := 0;
                  IsDir := false; Mode := perm_0644; Path := "docs/huge.bin" |} ],
             None, ftpClient) tt
  /\ Forall (fun f => 0 <= Size f <= 2 ^ 63 - 1)
       [ {| Name := "small.txt"; Size := 5; ModTime := 0; IsDir := false;
            Mode := perm_0644; Path := "docs/small.txt" |};
         {| Name := "huge.bin"; Size := 2 ^ 63 - 1; ModTime := 0;
            IsDir := false; Mode := perm_0644; Path := "docs/huge.bin" |} ].
Proof.
  assert (Hu : forall conn p w0 entries w1,
             play (ftpServer hugeListing) _ (ftp_List conn p) w0 = (Ok entries, w1) ->
             Forall (fun entry => 0 <= ftp_Size entry < 2 ^ 64) entries).
  { intros conn p w0 entries w1 H. injection H as <- _.
    repeat constructor; cbn; lia. }
  assert (Hr : run (play (ftpServer hugeListing))
                 (FTP.ListDirectory background ftpClient "docs") tt
               = Done ([ {| Name := "small.txt"; Size := 5; ModTime := 0;
                            IsDir := false; Mode := perm_0644;
                            Path := "docs/small.txt" |};
                         {| Name := "huge.bin"; Size := 2 ^ 63 - 1; ModTime := 0;
                            IsDir := false; Mode := perm_0644;
                            Path := "docs/huge.bin" |} ],
                       None, ftpClient) tt) by (vm_compute; reflexivity).
  split; [exact Hu|]. split; [exact Hr|].
  exact (proj1 (ftp_list_sizes_clamped unit (play (ftpServer hugeListing))
                  background ftpClient "docs" tt _ _ _ _ Hu Hr)).
Defined.

(** The configuration of TestNewWebDAVClient_WithPath. *)
Lemma webdav_new_client_base_url_witness :
  play (urlParser davLocalhost) _
    (url_Parse "http://localhost/webdav") tt
  = (Ok davLocalhost, tt)
  /\ exists c b,
      run (play (urlParser davLocalhost))
        (WebDAV.NewWebDAVClient
           {| WebDAV.CURL := "http://localhost/webdav"; WebDAV.Username := "";
              WebDAV.Password := ""; WebDAV.CPath := "/dav" |}) tt
      = Done c tt
      /\ WebDAV.baseURL c = Some b
      /\ UPath b = "/dav".
Proof.
  split; [reflexivity|].
  destruct (webdav_new_client_base_url unit
              (play (urlParser davLocalhost))
              {| WebDAV.CURL := "http://localhost/webdav"; WebDAV.Username := "";
                 WebDAV.Password := ""; WebDAV.CPath := "/dav" |}
              davLocalhost tt tt eq_refl)
    as (c & b & Hrun & _ & _ & Hb & Hrep & _).
  exists c, b. split; [exact Hrun|]. split; [exact Hb|].
  apply Hrep. split; discriminate.
Defined.
